(** * Ask Memory Agent: the JSON-RPC dispatcher of [src/index.js]

    A shallow embedding of [handleMCP], [askMemoryWithAI] and
    [searchMemories], and of the [POST /mcp] branch of [fetch] that wraps
    them.  The two external collaborators, the key-value namespace
    [env.MEMORY_KV] and the completion API reached through the platform's
    [fetch], are not part of the program: every [await] on one of them is
    a node of a program tree, and a run of the tree is driven by an
    arbitrary collaborator that answers each call with a value or with an
    exception.  An in-memory namespace gives the store the meaning the
    specification gives it ([list], [get], [put] with overwrite). *)

From Stdlib Require Import String Ascii List ZArith QArith Bool Lia DecimalString.
Import ListNotations.
Local Open Scope string_scope.
Local Open Scope Z_scope.

Set Implicit Arguments.

(* ================================================================== *)
(** ** Strings *)

(** A string is the sequence of its code units; a literal of this file
    stands for the UTF-8 bytes of the same literal in the source. *)

Definition dquote : string := String "034"%char EmptyString.
Definition newline : string := String "010"%char EmptyString.

(** [String.prototype.toLowerCase] and [String.prototype.trim] belong to
    the platform.  The program is embedded over any pair of functions
    that map the empty string to itself, which the built-ins do. *)
Class StringOps : Type := {
  toLowerCase : string -> string;
  trim : string -> string;
  toLowerCase_empty : toLowerCase "" = "";
  trim_empty : trim "" = ""
}.

(** [s.includes(sub)]: [sub] occurs in [s] as a contiguous run. *)
Fixpoint includes (s sub : string) : bool :=
  String.prefix sub s ||
  match s with
  | EmptyString => false
  | String _ rest => includes rest sub
  end.

(** [arr.join(sep)] *)
Definition join (sep : string) (arr : list string) : string :=
  String.concat sep arr.

(** Decimal rendering of an array length and of an integer number. *)
Definition string_of_nat (n : nat) : string :=
  NilZero.string_of_uint (Nat.to_uint n).
Definition string_of_Z (z : Z) : string :=
  NilZero.string_of_int (Z.to_int z).

(** The Number value nearest to the positive integer [n], ties to the
    even mantissa; [None] when it is beyond the largest Number. *)
Definition nearest_number (n : Z) : option Z :=
  let b := Z.log2 n in
  if b <=? 52 then Some n
  else
    let e := b - 52 in
    let q := n / 2 ^ e in
    let r := n mod 2 ^ e in
    let half := 2 ^ (e - 1) in
    let m := if r <? half then q
             else if half <? r then q + 1
             else if Z.even q then q else q + 1 in
    let x := m * 2 ^ e in
    if 1024 <=? Z.log2 x then None else Some x.

(** [y] is read back as the Number [x] (at least 2^53): it lies within
    half a gap of [x], the ends counting when the mantissa is even. *)
Definition reads_back_as (x y : Z) : bool :=
  let e := Z.log2 x - 52 in
  let m := x / 2 ^ e in
  let up := 2 ^ (e + 1) in                       (* 4 * half the gap above *)
  let down := if m =? 2 ^ 52 then 2 ^ e else 2 ^ (e + 1) in
  if Z.even m
  then (4 * x - down <=? 4 * y) && (4 * y <=? 4 * x + up)
  else (4 * x - down <? 4 * y) && (4 * y <? 4 * x + up).

Definition digit_count (x : Z) : Z := Z.of_nat (String.length (string_of_Z x)).

(** The candidates [(s, n)] with [k] digits: [s * 10^(n-k)] reads back as [x]. *)
Definition candidates (x k : Z) : list (Z * Z) :=
  flat_map
    (fun n =>
       let p := 10 ^ (n - k) in
       filter
         (fun c => (10 ^ (k - 1) <=? fst c) && (fst c <? 10 ^ k)
                   && reads_back_as x (fst c * p))
         [(x / p, n); (x / p + 1, n)])
    [digit_count x; digit_count x + 1].

(** The candidate nearest to [x]; of two equally near, the even one. *)
Definition nearer (x k : Z) (c d : Z * Z) : Z * Z :=
  let dist c := Z.abs (fst c * 10 ^ (snd c - k) - x) in
  if dist c <? dist d then c
  else if dist d <? dist c then d
  else if Z.even (fst c) then c else d.

Definition best (x k : Z) : option (Z * Z) :=
  match candidates x k with
  | [] => None
  | c :: rest => Some (fold_left (nearer x k) rest c)
  end.

Fixpoint shortest (x : Z) (k : Z) (fuel : nat) : option (Z * Z * Z) :=
  match fuel with
  | O => None
  | S fuel' =>
      match best x k with
      | Some (s, n) => Some (s, n, k)
      | None => shortest x (k + 1) fuel'
      end
  end.

Fixpoint zeros (n : nat) : string :=
  match n with O => "" | S n' => "0" ++ zeros n' end.

Definition positive_number_text (n : Z) : string :=
  match nearest_number n with
  | None => "Infinity"
  | Some x =>
      if Z.log2 x <=? 52 then string_of_Z x
      else
        match shortest x 1 17 with
        | None => string_of_Z x
        | Some (s, n, k) =>
            if n <=? 21 then string_of_Z s ++ zeros (Z.to_nat (n - k))
            else
              match string_of_Z s with
              | String d rest =>
                  String d (if k =? 1 then "" else "." ++ rest)
                  ++ "e+" ++ string_of_Z (n - 1)
              | EmptyString => ""
              end
        end
  end.

(** [String(n)] for the Number nearest to the integer [n]: all the
    digits below 2^53, the shortest digits that read back as the Number
    above, in exponent form from 10^21 on. *)
Definition number_text (n : Z) : string :=
  if n =? 0 then "0"
  else if n <? 0 then "-" ++ positive_number_text (- n)
  else positive_number_text n.

(** An executable instance for the ASCII range: letters [A]-[Z] are
    lowered, and [trim] strips tab, line feed, vertical tab, form feed,
    carriage return and space from both ends. *)
Module AsciiOps.

Definition lower_char (c : ascii) : ascii :=
  let n := nat_of_ascii c in
  if (Nat.leb 65 n && Nat.leb n 90)%bool then ascii_of_nat (n + 32) else c.

Fixpoint lower (s : string) : string :=
  match s with
  | EmptyString => EmptyString
  | String c rest => String (lower_char c) (lower rest)
  end.

Definition is_space (c : ascii) : bool :=
  let n := nat_of_ascii c in
  ((Nat.leb 9 n && Nat.leb n 13) || Nat.eqb n 32)%bool.

Fixpoint trim_start (s : string) : string :=
  match s with
  | EmptyString => EmptyString
  | String c rest => if is_space c then trim_start rest else s
  end.

(** Drops the trailing white space: a character is kept when something
    that is kept follows it, or when it is not white space. *)
Fixpoint trim_end (s : string) : string :=
  match s with
  | EmptyString => EmptyString
  | String c rest =>
      match trim_end rest with
      | EmptyString => if is_space c then EmptyString else String c EmptyString
      | kept => String c kept
      end
  end.

Definition strip (s : string) : string := trim_end (trim_start s).

#[export] Instance ops : StringOps :=
  {| toLowerCase := lower; trim := strip;
     toLowerCase_empty := eq_refl; trim_empty := eq_refl |}.

End AsciiOps.

(* ================================================================== *)
(** ** JavaScript values *)

(** The values a decoded JSON body can hold, and [undefined] for a
    property that is absent.  A number is the Number nearest to an
    integer.  An array or object carries the text [String(v)] gives for
    it; [JsUnprintable] is one for which [String(v)] throws, as a decoded
    object whose own [toString] is not callable. *)
Inductive JsVal : Type :=
| JsUndefined
| JsNull
| JsBool (b : bool)
| JsNumber (n : Z)
| JsString (s : string)
| JsObject (repr : string)
| JsUnprintable.

(** The value as a condition: [if (v)], [!v], [v || d], [v && e]. *)
Definition truthy (v : JsVal) : bool :=
  match v with
  | JsUndefined | JsNull => false
  | JsBool b => b
  | JsNumber n => negb (n =? 0)
  | JsString s => negb (String.eqb s "")
  | JsObject _ => true
  | JsUnprintable => true
  end.

(** [a || b] on values. *)
Definition js_or (a b : JsVal) : JsVal := if truthy a then a else b.

(** [v === 'literal'] *)
Definition strict_eq_string (v : JsVal) (lit : string) : bool :=
  match v with
  | JsString s => String.eqb s lit
  | _ => false
  end.

(** What a call either returns or throws; [Thrown] carries
    [error.message]. *)
Inductive Outcome (A : Type) : Type :=
| Returned (a : A)
| Thrown (message : string).
Arguments Thrown {A} message.

(** The value inside a template literal, [`${v}`]: the text of the
    value, or the [TypeError] of a value that has none. *)
Definition to_string (v : JsVal) : Outcome string :=
  match v with
  | JsUndefined => Returned "undefined"
  | JsNull => Returned "null"
  | JsBool true => Returned "true"
  | JsBool false => Returned "false"
  | JsNumber n => Returned (number_text n)
  | JsString s => Returned s
  | JsObject repr => Returned repr
  | JsUnprintable => Thrown "Cannot convert object to primitive value"
  end.

(** The receiver of a string method: [expr.method()] runs on a string
    and throws a [TypeError] on any other value. *)
Definition string_receiver (expr method : string) (v : JsVal) : Outcome string :=
  match v with
  | JsString s => Returned s
  | JsUndefined =>
      Thrown ("Cannot read properties of undefined (reading '" ++ method ++ "')")
  | JsNull =>
      Thrown ("Cannot read properties of null (reading '" ++ method ++ "')")
  | _ => Thrown (expr ++ "." ++ method ++ " is not a function")
  end.

(* ================================================================== *)
(** ** The collaborators and the program trees *)

(** [env]: the secret [OPENAI_API_KEY], a text when it has been put, and
    the variable [OPENAI_MODEL].  The binding [env.MEMORY_KV] is the
    key-value collaborator below. *)
Record Env : Type := {
  OPENAI_API_KEY : option string;
  OPENAI_MODEL : JsVal
}.

(** The secret as a condition and inside a template literal. *)
Definition secret_is_set (secret : option string) : bool :=
  match secret with
  | Some s => negb (String.eqb s "")
  | None => false
  end.

Definition secret_text (secret : option string) : string :=
  match secret with
  | Some s => s
  | None => "undefined"
  end.

(** The argument of [fetch] in [askMemoryWithAI]. *)
Record CompletionRequest : Type := {
  req_url : string;
  req_method : string;
  req_authorization : string;
  req_content_type : string;
  req_model : JsVal;
  req_messages : list (string * string);  (* role, content *)
  req_max_tokens : Z;
  req_temperature : Q
}.

(** [data.choices]: each choice with its [message.content], a string,
    or none when the message carries no [content]. *)
Definition CompletionData : Type := list (option string).

(** The [Response] of [fetch]: the status, and what [response.json()]
    resolves to.  [response.ok] is the platform's reading of the status. *)
Record FetchResponse : Type := {
  status : Z;
  json : Outcome CompletionData
}.

Definition ok (r : FetchResponse) : bool :=
  (200 <=? status r) && (status r <=? 299).

(** One awaited call on a collaborator. *)
Inductive Call : Type :=
| KvList
| KvGet (name : string)
| KvPut (key value : JsVal)
| Fetch (req : CompletionRequest).

(** What the call resolves to: the key names of [list.keys], the value
    or [null] of [get], nothing for [put], the response of [fetch]. *)
Definition Reply (c : Call) : Type :=
  match c with
  | KvList => list string
  | KvGet _ => option string
  | KvPut _ _ => unit
  | Fetch _ => FetchResponse
  end.

(** An [async] function body: it returns, throws, or awaits a call and
    goes on with what the call returned or threw. *)
Inductive Prog (A : Type) : Type :=
| Ret (a : A)
| Throw (message : string)
| Await (c : Call) (k : Outcome (Reply c) -> Prog A).
Arguments Throw {A} message.

Fixpoint bind {A B : Type} (p : Prog A) (f : A -> Prog B) : Prog B :=
  match p with
  | Ret a => f a
  | Throw e => Throw e
  | Await c k => Await c (fun r => bind (k r) f)
  end.

(** [try { p } catch (error) { handler error.message }] *)
Fixpoint try_catch {A : Type} (p : Prog A) (handler : string -> Prog A) : Prog A :=
  match p with
  | Ret a => Ret a
  | Throw e => handler e
  | Await c k => Await c (fun r => try_catch (k r) handler)
  end.

(** A synchronous expression that may throw. *)
Definition lift {A : Type} (o : Outcome A) : Prog A :=
  match o with
  | Returned a => Ret a
  | Thrown e => Throw e
  end.

(** [await call]: a rejection is rethrown at the [await]. *)
Definition await (c : Call) : Prog (Reply c) := Await c (@lift (Reply c)).

Declare Scope prog_scope.
Delimit Scope prog_scope with prog.
Notation "x <- p ;; q" := (bind p (fun x => q))
  (at level 61, p at next level, right associativity) : prog_scope.
Notation "p ;; q" := (bind p (fun _ => q))
  (at level 61, right associativity) : prog_scope.
Local Open Scope prog_scope.

(** A collaborator with states in [W] answers every call and moves to
    its next state. *)
Definition Collab (W : Type) : Type :=
  forall c : Call, W -> Outcome (Reply c) * W.

(** The outcome of a run, the collaborator's last state, and the calls
    made, first to last. *)
Record Run (W A : Type) : Type := {
  outcome : Outcome A;
  final : W;
  calls : list Call
}.

Fixpoint run {W A : Type} (w : Collab W) (p : Prog A) (s : W) : Run W A :=
  match p with
  | Ret a => {| outcome := Returned a; final := s; calls := [] |}
  | Throw e => {| outcome := Thrown e; final := s; calls := [] |}
  | Await c k =>
      let (r, s') := w c s in
      let rest := run w (k r) s' in
      {| outcome := outcome rest; final := final rest; calls := c :: calls rest |}
  end.

(* ================================================================== *)
(** ** The JSON-RPC request and response objects *)

(** [params.arguments]: the four properties the tools read. *)
Record Args : Type := {
  question : JsVal;
  key : JsVal;
  value : JsVal;
  query : JsVal
}.

(** The default [{}] of [arguments: args = {}]. *)
Definition no_args : Args :=
  {| question := JsUndefined; key := JsUndefined;
     value := JsUndefined; query := JsUndefined |}.

(** A property that holds an object: absent, [null], or the object.  A
    value of another kind has none of the properties read from it and
    stands as the object with no property. *)
Inductive Field (A : Type) : Type :=
| Absent
| Null
| Given (a : A).
Arguments Absent {A}.
Arguments Null {A}.

Record Params : Type := {
  name : JsVal;
  arguments : Field Args
}.

(** The default [{}] of [params = {}]. *)
Definition no_params : Params := {| name := JsUndefined; arguments := Absent |}.

(** [const { first, ... } = v], after the default [{}] has stood in for an
    absent [v]: destructuring [null] throws. *)
Definition destructured {A : Type} (first binding : string) (v : Field A)
    (default : A) : Outcome A :=
  match v with
  | Absent => Returned default
  | Given a => Returned a
  | Null =>
      Thrown ("Cannot destructure property '" ++ first ++ "' of '" ++ binding
              ++ "' as it is null.")
  end.

(** [v.property], after the default [{}] has stood in for an absent
    [v]: reading a property of [null] throws. *)
Definition read_from {A : Type} (property : string) (v : Field A)
    (default : A) : Outcome A :=
  match v with
  | Absent => Returned default
  | Given a => Returned a
  | Null => Thrown ("Cannot read properties of null (reading '" ++ property ++ "')")
  end.

(** The arguments read when the property is absent or holds an object. *)
Definition args_or_default (a : option Args) : Args :=
  match a with Some given => given | None => no_args end.

(** The decoded request body. *)
Record Body : Type := {
  method : JsVal;
  params : Field Params;
  id : JsVal
}.

Record ContentBlock : Type := { type : string; text : string }.

Record ToolProperty : Type := {
  property : string;
  property_type : string;
  property_description : string
}.

Record Tool : Type := {
  tool_name : string;
  description : string;
  schema_type : string;
  properties : list ToolProperty;
  required : list string
}.

(** The three results: the protocol version with the names of the
    capabilities, each an empty object; the tool catalog; the content of
    a tool call. *)
Inductive ResultValue : Type :=
| Initialized (protocolVersion : string) (capabilities : list string)
| ToolCatalog (tools : list Tool)
| ToolOutput (content : list ContentBlock).

(** A response object [{ jsonrpc: '2.0', result, id }] or
    [{ jsonrpc: '2.0', error: { code, message }, id }]. *)
Inductive Envelope : Type :=
| Result (result : ResultValue) (request_id : JsVal)
| Error (code : Z) (message : string) (request_id : JsVal).

Definition jsonrpc (_ : Envelope) : string := "2.0".

Definition text_result (t : string) (request_id : JsVal) : Envelope :=
  Result (ToolOutput [{| type := "text"; text := t |}]) request_id.

Definition tools : list Tool :=
  [ {| tool_name := "ask_memory";
       description :=
         "Ask intelligent questions about your stored memory using ChatGPT analysis";
       schema_type := "object";
       properties :=
         [ {| property := "question"; property_type := "string";
              property_description :=
                "Question about your memory, projects, people, etc." |} ];
       required := ["question"] |};
    {| tool_name := "store_memory";
       description := "Store new information in your memory";
       schema_type := "object";
       properties :=
         [ {| property := "key"; property_type := "string";
              property_description := "Key to store the information under" |};
           {| property := "value"; property_type := "string";
              property_description := "Information to store" |} ];
       required := ["key"; "value"] |};
    {| tool_name := "search_memory";
       description := "Search stored memories";
       schema_type := "object";
       properties :=
         [ {| property := "query"; property_type := "string";
              property_description := "Search term" |} ];
       required := ["query"] |} ].

(* ================================================================== *)
(** ** The program *)

Section Program.

Context {ops : StringOps}.

(** The line pushed for a hit. *)
Definition bullet (name value : string) : string :=
  "• " ++ name ++ ": " ++ value.

(** The body of [for (const key of list.keys)] in [searchMemories], with
    the array [results] built so far.  [value && (a || b)] looks at the
    query only when the value is a non-empty string. *)
Fixpoint searchMemories_loop (query : JsVal) (keys : list string)
    (results : list string) : Prog (list string) :=
  match keys with
  | [] => Ret results
  | name :: rest =>
      value <- await (KvGet name) ;;
      match value with
      | None => searchMemories_loop query rest results
      | Some v =>
          if String.eqb v "" then searchMemories_loop query rest results
          else
            q <- lift (string_receiver "query" "toLowerCase" query) ;;
            if includes (toLowerCase name) (toLowerCase q)
               || includes (toLowerCase v) (toLowerCase q)
            then searchMemories_loop query rest (results ++ [bullet name v])%list
            else searchMemories_loop query rest results
      end
  end.

Definition no_memories_found (query : string) : string :=
  "No memories found matching " ++ dquote ++ query ++ dquote.

Definition found_memories (results : list string) : string :=
  "Found " ++ string_of_nat (List.length results) ++ " memories:"
  ++ newline ++ join newline results.

Definition searchMemories (query : JsVal) (env : Env) : Prog string :=
  try_catch
    (list <- await KvList ;;
     results <- searchMemories_loop query list [] ;;
     if Nat.eqb (List.length results) 0
     then (text <- lift (to_string query) ;; Ret (no_memories_found text))
     else Ret (found_memories results))
    (fun message => Ret ("Search error: " ++ message)).

Definition prompt_for (question searchResults : string) : string :=
  newline
  ++ "You are a helpful memory assistant. The user asked: "
  ++ dquote ++ question ++ dquote ++ newline ++ newline
  ++ "Here's what I found in their stored memories:" ++ newline
  ++ searchResults ++ newline ++ newline
  ++ "Provide a helpful, conversational response. If no relevant memories were found, suggest what kind of information would be useful to store about this topic."
  ++ newline ++ "  ".

Definition completion_request (env : Env) (prompt : string) : CompletionRequest :=
  {| req_url := "https://api.openai.com/v1/chat/completions";
     req_method := "POST";
     req_authorization := "Bearer " ++ secret_text (OPENAI_API_KEY env);
     req_content_type := "application/json";
     req_model := js_or (OPENAI_MODEL env) (JsString "gpt-5");
     req_messages := [("user", prompt)];
     req_max_tokens := 500;
     req_temperature := (7 # 10)%Q |}.

(** [data.choices[0].message.content], the receiver of [.trim()]. *)
Definition first_choice_content (data : CompletionData) : Outcome string :=
  match data with
  | [] => Thrown "Cannot read properties of undefined (reading 'message')"
  | None :: _ => Thrown "Cannot read properties of undefined (reading 'trim')"
  | Some content :: _ => Returned content
  end.

Definition please_ask : string := "❓ Please ask a question about your memory.".

Definition askMemoryWithAI (question : JsVal) (env : Env) : Prog string :=
  q <- lift (string_receiver "question" "trim" question) ;;
  if String.eqb (trim q) "" then Ret please_ask
  else
    searchResults <- searchMemories question env ;;
    let prompt := prompt_for q searchResults in
    try_catch
      (response <- await (Fetch (completion_request env prompt)) ;;
       if negb (ok response)
       then Throw ("OpenAI API error: " ++ string_of_Z (status response))
       else
         data <- lift (json response) ;;
         content <- lift (first_choice_content data) ;;
         Ret ("🧠 **Memory Query**: " ++ dquote ++ q ++ dquote ++ newline ++ newline
              ++ "📝 **Response**: " ++ trim content))
      (fun message =>
         Ret ("🧠 **Memory Query**: " ++ dquote ++ q ++ dquote ++ newline ++ newline
              ++ "❌ **AI Error**: " ++ message ++ newline ++ newline
              ++ "📋 **Found memories**: " ++ searchResults)).

Definition both_required : string := "❌ Both key and value are required".

Definition handleMCP (body : Body) (env : Env) : Prog Envelope :=
  if strict_eq_string (method body) "initialize" then
    Ret (Result (Initialized "0.1.0" ["tools"; "prompts"]) (id body))
  else if strict_eq_string (method body) "tools/list" then
    Ret (Result (ToolCatalog tools) (id body))
  else if strict_eq_string (method body) "tools/call" then
    params <- lift (destructured "name" "params" (params body) no_params) ;;
    if strict_eq_string (name params) "ask_memory" then
      args <- lift (read_from "question" (arguments params) no_args) ;;
      response <- askMemoryWithAI (js_or (question args) (JsString "")) env ;;
      Ret (text_result response (id body))
    else if strict_eq_string (name params) "store_memory" then
      args <- lift (destructured "key" "args" (arguments params) no_args) ;;
      if negb (truthy (key args)) || negb (truthy (value args)) then
        Ret (text_result both_required (id body))
      else
        await (KvPut (key args) (value args)) ;;
        stored <- lift (to_string (key args)) ;;
        Ret (text_result ("✅ Stored memory: " ++ stored) (id body))
    else if strict_eq_string (name params) "search_memory" then
      args <- lift (read_from "query" (arguments params) no_args) ;;
      results <- searchMemories (js_or (query args) (JsString "")) env ;;
      Ret (text_result results (id body))
    else
      unknown <- lift (to_string (name params)) ;;
      Ret (Error (-32601) ("Unknown tool: " ++ unknown) (id body))
  else
    unknown <- lift (to_string (method body)) ;;
    Ret (Error (-32601) ("Unknown method: " ++ unknown) (id body)).

(** The [POST /mcp] branch of [fetch]: [parsed] is what
    [await request.json()] gives. *)
Record HttpResponse : Type := { http_status : Z; http_body : Envelope }.

Definition fetch_mcp (parsed : Outcome Body) (env : Env) : Prog HttpResponse :=
  try_catch
    (body <- lift parsed ;;
     response <- handleMCP body env ;;
     Ret {| http_status := 200; http_body := response |})
    (fun message =>
       Ret {| http_status := 500; http_body := Error (-32603) message JsNull |}).

End Program.

(* ================================================================== *)
(** ** An in-memory key-value namespace *)

(** Modelled from the spec: the key-value store is an external
    collaborator with the operations [list()] (the key names), [get(key)]
    (the value, or absent) and [put(key, value)] (overwrite or create);
    its implementation is not part of the repository.  A namespace is the
    sequence of its entries in enumeration order.  The value of an entry
    is what [get] answers for its name: [None] is the answer [null], for
    a name that is listed while its value is absent. *)
Definition Namespace : Type := list (string * option string).

Definition ns_keys (ns : Namespace) : list string := map fst ns.

Fixpoint ns_get (ns : Namespace) (name : string) : option string :=
  match ns with
  | [] => None
  | (k, v) :: rest => if String.eqb k name then v else ns_get rest name
  end.

(** Overwrites the entry in place, or creates it at the end. *)
Fixpoint ns_put (key value : string) (ns : Namespace) : Namespace :=
  match ns with
  | [] => [(key, Some value)]
  | (k, v) :: rest =>
      if String.eqb k key then (k, Some value) :: rest
      else (k, v) :: ns_put key value rest
  end.

(** Keys are unique within the namespace. *)
Definition unique_keys (ns : Namespace) : Prop := NoDup (ns_keys ns).

(** The collaborator made of a namespace and of a completion API that
    answers each request by [api].  The store keeps strings: the
    arguments of [put] are taken as text, and [put] throws on one that
    has none. *)
Definition memory (api : CompletionRequest -> Outcome FetchResponse)
  : Collab Namespace :=
  fun c =>
    match c as c0 return Namespace -> Outcome (Reply c0) * Namespace with
    | KvList => fun ns => (Returned (ns_keys ns), ns)
    | KvGet name => fun ns => (Returned (ns_get ns name), ns)
    | KvPut key value => fun ns =>
        match to_string key, to_string value with
        | Returned k, Returned v => (Returned tt, ns_put k v ns)
        | Thrown e, _ => (Thrown e, ns)
        | _, Thrown e => (Thrown e, ns)
        end
    | Fetch req => fun ns => (api req, ns)
    end.

(** A completion API that is down. *)
Definition api_down (_ : CompletionRequest) : Outcome FetchResponse :=
  Thrown "fetch failed".

(** A completion API that answers every request with the same response. *)
Definition api_answering (response : FetchResponse)
  (_ : CompletionRequest) : Outcome FetchResponse :=
  Returned response.

(** A collaborator whose every call throws. *)
Definition failing (message : string) : Collab unit :=
  fun c s => (Thrown message, s).

(** The body of a [tools/call] request, and the three tools with the
    arguments their schemas name. *)
Definition tool_call (tool : JsVal) (args : option Args) (request_id : JsVal) : Body :=
  {| method := JsString "tools/call";
     params :=
       Given {| name := tool;
                arguments := match args with Some a => Given a | None => Absent end |};
     id := request_id |}.

(** The same with [arguments] as the request holds it: absent, [null]
    or an object. *)
Definition tool_call_with (tool : JsVal) (args : Field Args) (request_id : JsVal)
  : Body :=
  {| method := JsString "tools/call";
     params := Given {| name := tool; arguments := args |};
     id := request_id |}.

Definition store_memory (key value request_id : JsVal) : Body :=
  tool_call (JsString "store_memory")
    (Some {| question := JsUndefined; key := key; value := value;
             query := JsUndefined |})
    request_id.

Definition search_memory (query request_id : JsVal) : Body :=
  tool_call (JsString "search_memory")
    (Some {| question := JsUndefined; key := JsUndefined; value := JsUndefined;
             query := query |})
    request_id.

Definition ask_memory (question request_id : JsVal) : Body :=
  tool_call (JsString "ask_memory")
    (Some {| question := question; key := JsUndefined; value := JsUndefined;
             query := JsUndefined |})
    request_id.

(* ================================================================== *)
(** ** Properties of programs *)

(** Every call a program can make satisfies [P]. *)
Inductive calls_only (P : Call -> Prop) (A : Type) : Prog A -> Prop :=
| only_Ret (a : A) : calls_only P (Ret a)
| only_Throw (e : string) : calls_only P (Throw e)
| only_Await (c : Call) (k : Outcome (Reply c) -> Prog A) :
    P c -> (forall r, calls_only P (k r)) -> calls_only P (Await c k).

(** No leaf of the program throws. *)
Inductive never_throws (A : Type) : Prog A -> Prop :=
| total_Ret (a : A) : never_throws (Ret a)
| total_Await (c : Call) (k : Outcome (Reply c) -> Prog A) :
    (forall r, never_throws (k r)) -> never_throws (Await c k).

Create HintDb prog.
#[local] Hint Constructors calls_only never_throws : prog.


(* ================================================================== *)
(** ** What a search reports *)

Section Reading.

Context {ops : StringOps}.

(** The text [get] answered, [null] read as the empty text. *)
Definition value_text (v : option string) : string :=
  match v with Some s => s | None => "" end.

(** The entry passes the filter of [searchMemories]: its value is a
    non-empty string, and the lowered query occurs in the lowered key or
    in the lowered value. *)
Definition matches (q : string) (entry : string * option string) : bool :=
  match snd entry with
  | Some v =>
      negb (String.eqb v "")
      && (includes (toLowerCase (fst entry)) (toLowerCase q)
          || includes (toLowerCase v) (toLowerCase q))
  | None => false
  end.

(** The filter as the specification words it, with no guard on the
    value: the lowered query occurs in the lowered key or in the lowered
    value. *)
Definition contains_query (q : string) (entry : string * option string) : bool :=
  includes (toLowerCase (fst entry)) (toLowerCase q)
  || includes (toLowerCase (value_text (snd entry))) (toLowerCase q).

(** The entry has a value that is a non-empty string. *)
Definition has_value (entry : string * option string) : bool :=
  match snd entry with
  | Some v => negb (String.eqb v "")
  | None => false
  end.

Definition has_key (k : string) (entry : string * option string) : bool :=
  String.eqb (fst entry) k.

Definition entry_line (entry : string * option string) : string :=
  "• " ++ fst entry ++ ": " ++ value_text (snd entry).

(** The text of a search for [q] that reports the entries [hits]: a
    count and one bullet line per entry, or the no-match sentence. *)
Definition search_text (q : string) (hits : list (string * option string)) : string :=
  match hits with
  | [] => "No memories found matching " ++ dquote ++ q ++ dquote
  | _ =>
      "Found " ++ string_of_nat (List.length hits) ++ " memories:" ++ newline
      ++ join newline (map entry_line hits)
  end.

(** The lines the loop pushes when it walks the names [names] over the
    namespace [ns]. *)
Definition lines (q : string) (ns : Namespace) (names : list string) : list string :=
  flat_map
    (fun name =>
       if matches q (name, ns_get ns name)
       then [entry_line (name, ns_get ns name)] else [])
    names.

(** The call reads the namespace; the call writes to it. *)
Definition is_read (c : Call) : Prop :=
  match c with KvList | KvGet _ => True | _ => False end.

Definition is_write (c : Call) : Prop :=
  match c with KvPut _ _ => True | _ => False end.

(** The requests served one after the other. *)
Fixpoint serve {W : Type} (w : Collab W) (bodies : list Body) (env : Env) (s : W) : W :=
  match bodies with
  | [] => s
  | body :: rest => serve w rest env (final (run w (handleMCP body env) s))
  end.

(** The search as the specification words it: a search for [q] reports
    every entry whose key or value contains the query. *)
Definition reports_all_containing (api : CompletionRequest -> Outcome FetchResponse)
    (env : Env) (ns : Namespace) (q : string) (rid : JsVal) : Prop :=
  outcome (run (memory api) (handleMCP (search_memory (JsString q) rid) env) ns)
  = Returned (text_result (search_text q (filter (contains_query q) ns)) rid).

(** The dispatcher answered with a result envelope. *)
Definition returns_result {W : Type} (r : Run W Envelope) : Prop :=
  exists result rid, outcome r = Returned (Result result rid).

(** The completion call made in the state [s] fails with the
    description [failure]: [fetch] rejects with that message, or it
    resolves with a status outside 200-299 and the description is
    [OpenAI API error: ] followed by the status. *)
Definition completion_fails {W : Type} (w : Collab W) (s : W)
    (req : CompletionRequest) (failure : string) : Prop :=
  fst (w (Fetch req) s) = Thrown failure
  \/ exists response,
       fst (w (Fetch req) s) = Returned response
       /\ (status response < 200 \/ 299 < status response)
       /\ failure = "OpenAI API error: " ++ string_of_Z (status response).

(** One [store_memory] request on the key [k] for each of the values. *)
Definition stores (k : string) (values : list string) (rid : JsVal) : list Body :=
  map (fun v => store_memory (JsString k) (JsString v) rid) values.

End Reading.

(** An environment with no credential and no model override. *)
Definition unconfigured : Env :=
  {| OPENAI_API_KEY := None; OPENAI_MODEL := JsUndefined |}.

(** Settles [unique_keys] on a namespace that is written out. *)
Ltac unique_keys_by_cases :=
  unfold unique_keys; simpl; repeat constructor; simpl; intuition discriminate.

(** Runs that are written out use the ASCII string operations; a
    statement over any [StringOps] keeps its own. *)
#[local] Existing Instance AsciiOps.ops | 100.

(* ================================================================== *)
(** ** The HTTP handler *)

(** [env] as [fetch] reads it: the bindings the dispatcher uses, and the
    URI the health report looks at. *)
Record WorkerEnv : Type := {
  dispatcher_env : Env;
  NEO4J_URI : JsVal
}.

(** The request: [request.method], the [pathname] of
    [new URL(request.url)], and what [await request.json()] gives.  A
    body that is [null] fails in the first destructuring of the
    dispatcher, inside the same [try], and is answered like a body that
    does not parse, with the message of that exception. *)
Record Request : Type := {
  request_method : string;
  pathname : string;
  request_json : Outcome Body
}.

(** What a response carries: [null], a text, or the JSON of the health
    report, of the service descriptor, or of an envelope. *)
Inductive Payload : Type :=
| NoBody
| Text (t : string)
| Health (health_status openai neo4j timestamp : string)
| Descriptor (service version service_type endpoint : string)
| Rpc (envelope : Envelope).

(** A response with the status and the headers the handler sets;
    [Response.json] adds the JSON content type on its own. *)
Record WorkerResponse : Type := {
  response_status : Z;
  response_headers : list (string * string);
  payload : Payload
}.

Definition cors_origin : string * string := ("Access-Control-Allow-Origin", "*").

Section Handler.

Context {ops : StringOps}.

(** [fetch(request, env, ctx)]; [now] is [new Date().toISOString()]. *)
Definition fetch (now : string) (request : Request) (env : WorkerEnv)
  : Prog WorkerResponse :=
  if String.eqb (request_method request) "OPTIONS" then
    Ret {| response_status := 200;
           response_headers :=
             [ cors_origin;
               ("Access-Control-Allow-Methods", "GET, POST, OPTIONS");
               ("Access-Control-Allow-Headers", "Content-Type, Authorization") ];
           payload := NoBody |}
  else if String.eqb (pathname request) "/health" then
    Ret {| response_status := 200;
           response_headers := [];
           payload :=
             Health "healthy"
               (if secret_is_set (OPENAI_API_KEY (dispatcher_env env))
                then "connected" else "not configured")
               (if truthy (NEO4J_URI env) then "configured" else "not configured")
               now |}
  else if String.eqb (pathname request) "/" then
    Ret {| response_status := 200;
           response_headers := [];
           payload := Descriptor "Ask Memory Agent" "1.0.0" "mcp" "/mcp" |}
  else if String.eqb (pathname request) "/mcp"
          && String.eqb (request_method request) "POST" then
    try_catch
      (body <- lift (request_json request) ;;
       response <- handleMCP body (dispatcher_env env) ;;
       Ret {| response_status := 200;
              response_headers := [cors_origin; ("Content-Type", "application/json")];
              payload := Rpc response |})
      (fun message =>
         Ret {| response_status := 500;
                response_headers := [];
                payload := Rpc (Error (-32603) message JsNull) |})
  else
    Ret {| response_status := 404; response_headers := []; payload := Text "Not Found" |}.

End Handler.

(** The request is the one the dispatcher serves. *)
Definition is_mcp_post (request : Request) : bool :=
  String.eqb (pathname request) "/mcp"
  && String.eqb (request_method request) "POST".

(** [params.name] as [tools/call] reads it: [undefined] when [params]
    is absent, and nothing when [params] is [null]. *)
Definition requested_tool (p : Field Params) : option JsVal :=
  match p with
  | Absent => Some JsUndefined
  | Given given => Some (name given)
  | Null => None
  end.

(** The [id] an envelope carries. *)
Definition envelope_id (e : Envelope) : JsVal :=
  match e with
  | Result _ rid => rid
  | Error _ _ rid => rid
  end.

Definition is_error (e : Envelope) : bool :=
  match e with
  | Result _ _ => false
  | Error _ _ _ => true
  end.

(** The state after [get] has returned for each of the names in turn,
    when none of these calls throws. *)
Fixpoint after_gets {W : Type} (w : Collab W) (names : list string) (s : W) : option W :=
  match names with
  | [] => Some s
  | name :: rest =>
      match w (KvGet name) s with
      | (Returned _, s') => after_gets w rest s'
      | (Thrown _, _) => None
      end
  end.

(** The calls of a search, which come before the completion call. *)
Definition search_calls {ops : StringOps} {W : Type} (w : Collab W) (s : W)
    (q : string) (env : Env) : list Call :=
  calls (run w (searchMemories (JsString q) env) s).

(** A clock reading and an environment with nothing configured, for the
    runs that are written out. *)
Definition midnight : string := "2025-01-01T00:00:00.000Z".

Definition plain_env : WorkerEnv :=
  {| dispatcher_env := unconfigured; NEO4J_URI := JsUndefined |}.

(** A store whose entry [b] cannot be read. *)
Definition unreadable_b : Collab unit :=
  fun c =>
    match c as c0 return unit -> Outcome (Reply c0) * unit with
    | KvList => fun s => (Returned ["a"; "b"; "c"], s)
    | KvGet name =>
        fun s =>
          (if String.eqb name "b" then Thrown "timeout" else Returned (Some "apple"), s)
    | KvPut _ _ => fun s => (Returned tt, s)
    | Fetch _ => fun s => (Thrown "fetch failed", s)
    end.

(** The text [askMemoryWithAI] returns for the question [q] once the
    search has given [found] and the completion call has answered
    [reply]: the first choice, or the fallback with the reason. *)
Definition completion_answer {ops : StringOps} (q found : string)
    (reply : Outcome FetchResponse) : string :=
  let fallback message :=
    "🧠 **Memory Query**: " ++ dquote ++ q ++ dquote ++ newline ++ newline
    ++ "❌ **AI Error**: " ++ message ++ newline ++ newline
    ++ "📋 **Found memories**: " ++ found in
  match reply with
  | Thrown message => fallback message
  | Returned response =>
      if ok response then
        match json response with
        | Thrown message => fallback message
        | Returned data =>
            match first_choice_content data with
            | Thrown message => fallback message
            | Returned content =>
                "🧠 **Memory Query**: " ++ dquote ++ q ++ dquote ++ newline ++ newline
                ++ "📝 **Response**: " ++ trim content
            end
        end
      else fallback ("OpenAI API error: " ++ string_of_Z (status response))
  end.

(** Split on the tests [handleMCP] makes on the method, and on the tool
    name of the parameters [p]. *)
Ltac method_cases body :=
  unfold handleMCP;
  destruct (strict_eq_string (method body) "initialize") eqn:Einit;
    [|destruct (strict_eq_string (method body) "tools/list") eqn:Elist;
       [|destruct (strict_eq_string (method body) "tools/call") eqn:Ecall]].

Ltac name_cases p :=
  destruct (strict_eq_string (name p) "ask_memory") eqn:Eask;
    [|destruct (strict_eq_string (name p) "store_memory") eqn:Estore;
       [|destruct (strict_eq_string (name p) "search_memory") eqn:Esearch]].

(* ================================================================== *)
(** ** Facts about strings *)

Lemma append_empty_r (s : string) : s ++ "" = s.
Proof. induction s as [|c s IH]; simpl; [reflexivity | now rewrite IH]. Qed.

Lemma append_assoc (a b c : string) : (a ++ b) ++ c = a ++ (b ++ c).
Proof. induction a as [|x a IH]; simpl; [reflexivity | now rewrite IH]. Qed.

Lemma prefix_append (a b : string) : String.prefix a (a ++ b) = true.
Proof.
  induction a as [|x a IH]; simpl.
  - now destruct b.
  - destruct (ascii_dec x x) as [_|ne]; [exact IH | now elim ne].
Qed.

Lemma prefix_split (a s : string) :
  String.prefix a s = true -> exists b, s = a ++ b.
Proof.
  revert a; induction s as [|y s IH]; intros [|x a] H; simpl in H.
  - now exists "".
  - discriminate.
  - now exists (String y s).
  - destruct (ascii_dec x y) as [->|_]; [|discriminate].
    destruct (IH a H) as [b ->]. now exists b.
Qed.

Lemma includes_unfold (s sub : string) :
  includes s sub =
  String.prefix sub s ||
  match s with EmptyString => false | String _ rest => includes rest sub end.
Proof. now destruct s. Qed.

Lemma includes_append_l (a s sub : string) :
  includes s sub = true -> includes (a ++ s) sub = true.
Proof.
  intros H; induction a as [|x a IH]; simpl; [exact H|].
  rewrite IH. apply orb_true_r.
Qed.

Lemma includes_append_r (s b sub : string) :
  includes s sub = true -> includes (s ++ b) sub = true.
Proof.
  induction s as [|x s IH]; intros H.
  - destruct sub; [|discriminate]. rewrite includes_unfold.
    now destruct b.
  - rewrite includes_unfold in H. apply orb_true_iff in H as [H|H].
    + destruct (prefix_split _ _ H) as [t Ht].
      rewrite Ht, append_assoc, includes_unfold, prefix_append. reflexivity.
    + change (String x s ++ b) with (String x (s ++ b)).
      rewrite includes_unfold, (IH H). apply orb_true_r.
Qed.

Lemma includes_refl (s : string) : includes s s = true.
Proof.
  rewrite includes_unfold. rewrite <- (append_empty_r s) at 2.
  now rewrite prefix_append.
Qed.

(** [includes] finds exactly the contiguous occurrences. *)
Lemma includes_spec (s sub : string) :
  includes s sub = true <-> exists a b, s = a ++ sub ++ b.
Proof.
  split.
  - induction s as [|x s IH]; intros H; rewrite includes_unfold in H;
      apply orb_true_iff in H as [H|H].
    + destruct (prefix_split _ _ H) as [b ->]. now exists "", b.
    + discriminate.
    + destruct (prefix_split _ _ H) as [b ->]. now exists "", b.
    + destruct (IH H) as (a & b & ->). now exists (String x a), b.
  - intros (a & b & ->).
    apply includes_append_l, includes_append_r, includes_refl.
Qed.

Lemma includes_empty (s : string) : includes s "" = true.
Proof. rewrite includes_unfold. now destruct s. Qed.

Lemma includes_trans (s m sub : string) :
  includes s m = true -> includes m sub = true -> includes s sub = true.
Proof.
  intros H1 H2. apply includes_spec in H1 as (a & b & ->).
  now apply includes_append_l, includes_append_r.
Qed.

(** An element of the array occurs in the joined text. *)
Lemma includes_join (sep x : string) (arr : list string) :
  In x arr -> includes (join sep arr) x = true.
Proof.
  unfold join. induction arr as [|y arr IH]; intros H; [contradiction|].
  destruct arr as [|z arr].
  - destruct H as [->|[]]. apply includes_refl.
  - change (String.concat sep (y :: z :: arr))
      with (y ++ sep ++ String.concat sep (z :: arr)).
    destruct H as [->|H].
    + apply includes_append_r, includes_refl.
    + now apply includes_append_l, includes_append_l, IH.
Qed.

(* ================================================================== *)
(** ** Facts about runs *)

Section Runs.

Variable W : Type.
Variable w : Collab W.

Lemma run_bind (A B : Type) (p : Prog A) (f : A -> Prog B) (s : W) :
  run w (bind p f) s =
  match outcome (run w p s) with
  | Returned a =>
      let rest := run w (f a) (final (run w p s)) in
      {| outcome := outcome rest; final := final rest;
         calls := calls (run w p s) ++ calls rest |}
  | Thrown e =>
      {| outcome := Thrown e; final := final (run w p s);
         calls := calls (run w p s) |}
  end.
Proof.
  revert s; induction p as [a|e|c k IH]; intros s; simpl.
  - now destruct (run w (f a) s).
  - reflexivity.
  - destruct (w c s) as [r s']. simpl. rewrite IH.
    now destruct (outcome (run w (k r) s')).
Qed.

Lemma run_try_catch (A : Type) (p : Prog A) (handler : string -> Prog A) (s : W) :
  run w (try_catch p handler) s =
  match outcome (run w p s) with
  | Returned a =>
      {| outcome := Returned a; final := final (run w p s);
         calls := calls (run w p s) |}
  | Thrown e =>
      let rest := run w (handler e) (final (run w p s)) in
      {| outcome := outcome rest; final := final rest;
         calls := calls (run w p s) ++ calls rest |}
  end.
Proof.
  revert s; induction p as [a|e|c k IH]; intros s; simpl.
  - reflexivity.
  - now destruct (run w (handler e) s).
  - destruct (w c s) as [r s']. simpl. rewrite IH.
    now destruct (outcome (run w (k r) s')).
Qed.

End Runs.

Lemma calls_only_bind (P : Call -> Prop) (A B : Type) (p : Prog A) (f : A -> Prog B) :
  calls_only P p -> (forall a, calls_only P (f a)) -> calls_only P (bind p f).
Proof. intros Hp Hf; induction Hp; simpl; auto with prog. Qed.

Lemma calls_only_try_catch (P : Call -> Prop) (A : Type) (p : Prog A)
    (handler : string -> Prog A) :
  calls_only P p -> (forall e, calls_only P (handler e)) ->
  calls_only P (try_catch p handler).
Proof. intros Hp Hh; induction Hp; simpl; auto with prog. Qed.

Lemma calls_only_lift (P : Call -> Prop) (A : Type) (o : Outcome A) :
  calls_only P (lift o).
Proof. destruct o; simpl; auto with prog. Qed.

Lemma calls_only_await (P : Call -> Prop) (c : Call) :
  P c -> calls_only P (await c).
Proof. intros H; apply only_Await; [exact H | intros r; apply calls_only_lift]. Qed.

Lemma calls_only_run (P : Call -> Prop) (W A : Type) (w : Collab W) (p : Prog A) :
  calls_only P p -> forall s, Forall P (calls (run w p s)).
Proof.
  induction 1 as [a|e|c k Hc _ IH]; intros s; simpl; auto.
  destruct (w c s) as [r s']. simpl. constructor; [exact Hc | apply IH].
Qed.

Lemma never_throws_try_catch (A : Type) (p : Prog A) (handler : string -> Prog A) :
  (forall e, never_throws (handler e)) -> never_throws (try_catch p handler).
Proof. intros Hh; induction p; simpl; auto with prog. Qed.

Lemma never_throws_bind (A B : Type) (p : Prog A) (f : A -> Prog B) :
  never_throws p -> (forall a, never_throws (f a)) -> never_throws (bind p f).
Proof. intros Hp Hf; induction Hp; simpl; auto with prog. Qed.

Lemma never_throws_run (W A : Type) (w : Collab W) (p : Prog A) :
  never_throws p -> forall s, exists a, outcome (run w p s) = Returned a.
Proof.
  induction 1 as [a|c k _ IH]; intros s; simpl; [now exists a|].
  destruct (w c s) as [r s']. simpl. apply IH.
Qed.

(* ================================================================== *)
(** ** Facts about the in-memory namespace *)

Lemma ns_get_put_same (k v : string) (ns : Namespace) :
  ns_get (ns_put k v ns) k = Some v.
Proof.
  induction ns as [|[k0 v0] ns IH]; simpl.
  - now rewrite String.eqb_refl.
  - destruct (String.eqb k0 k) eqn:E; simpl; rewrite E; [reflexivity | exact IH].
Qed.

Lemma ns_get_put_other (k v k' : string) (ns : Namespace) :
  k' <> k -> ns_get (ns_put k v ns) k' = ns_get ns k'.
Proof.
  intros ne; induction ns as [|[k0 v0] ns IH]; simpl.
  - destruct (String.eqb_spec k k'); [congruence | reflexivity].
  - destruct (String.eqb_spec k0 k) as [->|ne0]; simpl.
    + destruct (String.eqb_spec k k'); [congruence | reflexivity].
    + now rewrite IH.
Qed.

Lemma ns_keys_put (k v : string) (ns : Namespace) :
  ns_keys (ns_put k v ns) =
  if in_dec string_dec k (ns_keys ns) then ns_keys ns else (ns_keys ns ++ [k])%list.
Proof.
  unfold ns_keys. induction ns as [|[k0 v0] ns IH]; simpl; [reflexivity|].
  destruct (String.eqb_spec k0 k) as [->|ne0]; simpl.
  - now destruct (string_dec k k).
  - rewrite IH. destruct (string_dec k0 k); [congruence|].
    now destruct (in_dec string_dec k (map fst ns)).
Qed.

Lemma ns_put_listed (k v : string) (ns : Namespace) :
  In k (ns_keys (ns_put k v ns)).
Proof.
  rewrite ns_keys_put. destruct (in_dec string_dec k (ns_keys ns)); [assumption|].
  apply in_or_app. right. now left.
Qed.

Lemma unique_keys_put (k v : string) (ns : Namespace) :
  unique_keys ns -> unique_keys (ns_put k v ns).
Proof.
  unfold unique_keys. intros H. rewrite ns_keys_put.
  destruct (in_dec string_dec k (ns_keys ns)) as [|n]; [assumption|].
  apply NoDup_app; [assumption | repeat constructor; intros [] | ].
  intros x Hx [<-|[]]. now apply n.
Qed.

(** In a namespace with unique keys [get] answers the value of the entry. *)
Lemma ns_get_entry (ns : Namespace) (k : string) (v : option string) :
  unique_keys ns -> In (k, v) ns -> ns_get ns k = v.
Proof.
  unfold unique_keys, ns_keys.
  induction ns as [|[k0 v0] ns IH]; simpl; intros U H; [contradiction|].
  inversion U as [|? ? Hn U']; subst.
  destruct H as [E|H].
  - inversion E; subst. now rewrite String.eqb_refl.
  - destruct (String.eqb_spec k0 k) as [->|_]; [|now apply IH].
    elim Hn. change k with (fst (k, v)). now apply in_map.
Qed.

(** ... and the entries of key [k] are the one entry [get] reads. *)
Lemma entries_of_key (ns : Namespace) (k : string) :
  unique_keys ns ->
  filter (fun entry => String.eqb (fst entry) k) ns =
  if in_dec string_dec k (ns_keys ns) then [(k, ns_get ns k)] else [].
Proof.
  unfold unique_keys, ns_keys.
  induction ns as [|[k0 v0] ns IH]; simpl; intros U; [reflexivity|].
  inversion U as [|? ? Hn U']; subst. rewrite (IH U').
  destruct (String.eqb_spec k0 k) as [->|ne].
  - destruct (string_dec k k) as [e|n]; [|now elim n].
    destruct (in_dec string_dec k (map fst ns)) as [i|_]; [now elim Hn | reflexivity].
  - destruct (string_dec k0 k) as [|n]; [contradiction|].
    now destruct (in_dec string_dec k (map fst ns)).
Qed.

(* ================================================================== *)
(** ** Facts about [searchMemories] *)

Section Search.

Context {ops : StringOps}.

(** The loop over an in-memory namespace: one [get] per name, and the
    lines of the names that pass the filter, in order. *)
Lemma loop_on_memory api (q : string) (names acc : list string) (ns : Namespace) :
  run (memory api) (searchMemories_loop (JsString q) names acc) ns =
  {| outcome := Returned (acc ++ lines q ns names)%list;
     final := ns;
     calls := map KvGet names |}.
Proof.
  revert acc; induction names as [|name names IH]; intros acc; simpl.
  - now rewrite app_nil_r.
  - unfold matches, entry_line; simpl.
    destruct (ns_get ns name) as [v|]; simpl.
    + destruct (String.eqb v "") eqn:E; simpl.
      * now rewrite IH.
      * destruct (includes (toLowerCase name) (toLowerCase q)
                  || includes (toLowerCase v) (toLowerCase q)); simpl.
        -- rewrite IH. unfold bullet. now rewrite <- app_assoc.
        -- now rewrite IH.
    + now rewrite IH.
Qed.

Lemma lines_of_entries (q : string) (ns : Namespace) (entries : list (string * option string)) :
  (forall k v, In (k, v) entries -> ns_get ns k = v) ->
  lines q ns (map fst entries) = map entry_line (filter (matches q) entries).
Proof.
  unfold lines. induction entries as [|[k v] entries IH]; intros H; simpl.
  - reflexivity.
  - rewrite (H k v (or_introl eq_refl)), IH by (intros; apply H; now right).
    now destruct (matches q (k, v)).
Qed.

Lemma search_on_memory_lines api (q : string) (env : Env) (ns : Namespace) :
  run (memory api) (searchMemories (JsString q) env) ns =
  {| outcome :=
       Returned (if Nat.eqb (List.length (lines q ns (ns_keys ns))) 0
                 then no_memories_found q
                 else found_memories (lines q ns (ns_keys ns)));
     final := ns;
     calls := KvList :: map KvGet (ns_keys ns) |}.
Proof.
  unfold searchMemories. simpl.
  rewrite run_try_catch, run_bind, loop_on_memory. simpl.
  destruct (Nat.eqb (List.length (lines q ns (ns_keys ns))) 0); simpl; now rewrite app_nil_r.
Qed.

Lemma search_on_memory api (q : string) (env : Env) (ns : Namespace) :
  unique_keys ns ->
  run (memory api) (searchMemories (JsString q) env) ns =
  {| outcome := Returned (search_text q (filter (matches q) ns));
     final := ns;
     calls := KvList :: map KvGet (ns_keys ns) |}.
Proof.
  intros U. rewrite search_on_memory_lines. unfold ns_keys at 1 2.
  rewrite lines_of_entries by (intros; now apply ns_get_entry).
  unfold search_text, found_memories, no_memories_found.
  rewrite length_map. now destruct (filter (matches q) ns).
Qed.

(** Whatever the query and the collaborator, the loop and the search
    call only [list] and [get], and the search never throws. *)
Lemma loop_reads_only (query : JsVal) (names acc : list string) :
  calls_only is_read (searchMemories_loop query names acc).
Proof.
  revert acc; induction names as [|name names IH]; intros acc; simpl.
  - constructor.
  - constructor; [exact I|]. intros [[v|]|e]; simpl; try apply IH; try constructor.
    destruct (String.eqb v ""); [apply IH|].
    apply calls_only_bind; [apply calls_only_lift|]. intros lowered.
    destruct (_ || _); apply IH.
Qed.

Lemma searchMemories_reads_only (query : JsVal) (env : Env) :
  calls_only is_read (searchMemories query env).
Proof.
  unfold searchMemories. apply calls_only_try_catch; [|constructor].
  apply calls_only_bind; [now apply calls_only_await|]. intros names.
  apply calls_only_bind; [apply loop_reads_only|]. intros results.
  destruct (Nat.eqb _ 0); [|constructor].
  apply calls_only_bind; [apply calls_only_lift | constructor].
Qed.

Lemma searchMemories_never_throws (query : JsVal) (env : Env) :
  never_throws (searchMemories query env).
Proof. apply never_throws_try_catch. constructor. Qed.

End Search.

(* ================================================================== *)
(** ** The three branches of [tools/call] *)

Section Branches.

Context {ops : StringOps}.

Lemma handleMCP_search (a : option Args) (rid : JsVal) (env : Env) :
  handleMCP (tool_call (JsString "search_memory") a rid) env =
  (results <- searchMemories (js_or (query (args_or_default a)) (JsString "")) env ;;
   Ret (text_result results rid)).
Proof. now destruct a. Qed.

Lemma handleMCP_ask (a : option Args) (rid : JsVal) (env : Env) :
  handleMCP (tool_call (JsString "ask_memory") a rid) env =
  (response <- askMemoryWithAI (js_or (question (args_or_default a)) (JsString "")) env ;;
   Ret (text_result response rid)).
Proof. now destruct a. Qed.

Lemma handleMCP_store (a : option Args) (rid : JsVal) (env : Env) :
  handleMCP (tool_call (JsString "store_memory") a rid) env =
  let args := args_or_default a in
  if negb (truthy (key args)) || negb (truthy (value args))
  then Ret (text_result both_required rid)
  else (await (KvPut (key args) (value args)) ;;
        stored <- lift (to_string (key args)) ;;
        Ret (text_result ("✅ Stored memory: " ++ stored) rid)).
Proof. now destruct a. Qed.

Lemma js_or_string (q : string) : js_or (JsString q) (JsString "") = JsString q.
Proof.
  unfold js_or; simpl. now destruct (String.eqb_spec q "") as [->|].
Qed.

Lemma truthy_string (s : string) : s <> "" -> truthy (JsString s) = true.
Proof. intros H; simpl. now destruct (String.eqb_spec s ""). Qed.

(** A store with a non-empty key and value is one [put]. *)
Lemma store_run (W : Type) (w : Collab W) (s : W) (k v rid : JsVal) (env : Env) :
  truthy k = true -> truthy v = true ->
  run w (handleMCP (store_memory k v rid) env) s =
  {| outcome :=
       match fst (w (KvPut k v) s) with
       | Returned _ =>
           match to_string k with
           | Returned stored => Returned (text_result ("✅ Stored memory: " ++ stored) rid)
           | Thrown e => Thrown e
           end
       | Thrown e => Thrown e
       end;
     final := snd (w (KvPut k v) s);
     calls := [KvPut k v] |}.
Proof.
  intros Hk Hv. unfold store_memory. rewrite handleMCP_store. simpl.
  rewrite Hk, Hv. simpl. destruct (w (KvPut k v) s) as [[[]|e] s']; simpl.
  - now destruct (to_string k).
  - reflexivity.
Qed.

Lemma store_on_memory api (ns : Namespace) (k v : string) (rid : JsVal) (env : Env) :
  k <> "" -> v <> "" ->
  run (memory api) (handleMCP (store_memory (JsString k) (JsString v) rid) env) ns =
  {| outcome := Returned (text_result ("✅ Stored memory: " ++ k) rid);
     final := ns_put k v ns;
     calls := [KvPut (JsString k) (JsString v)] |}.
Proof.
  intros Hk Hv. now rewrite store_run by now apply truthy_string.
Qed.

Lemma search_memory_on_memory api (ns : Namespace) (q : string) (rid : JsVal) (env : Env) :
  unique_keys ns ->
  run (memory api) (handleMCP (search_memory (JsString q) rid) env) ns =
  {| outcome := Returned (text_result (search_text q (filter (matches q) ns)) rid);
     final := ns;
     calls := KvList :: map KvGet (ns_keys ns) |}.
Proof.
  intros U. unfold search_memory. rewrite handleMCP_search. simpl args_or_default.
  cbn [query]. rewrite js_or_string, run_bind, search_on_memory by assumption.
  simpl. now rewrite app_nil_r.
Qed.

End Branches.

(* ================================================================== *)
(** ** Facts about the dispatcher *)

Lemma ask_unfold {ops : StringOps} (q : string) (env : Env) :
  askMemoryWithAI (JsString q) env =
  if String.eqb (trim q) "" then Ret please_ask
  else
    (searchResults <- searchMemories (JsString q) env ;;
     try_catch
       (response <- await (Fetch (completion_request env (prompt_for q searchResults))) ;;
        if negb (ok response)
        then Throw ("OpenAI API error: " ++ string_of_Z (status response))
        else
          (data <- lift (json response) ;;
           content <- lift (first_choice_content data) ;;
           Ret ("🧠 **Memory Query**: " ++ dquote ++ q ++ dquote ++ newline ++ newline
                ++ "📝 **Response**: " ++ trim content)))
       (fun message =>
          Ret ("🧠 **Memory Query**: " ++ dquote ++ q ++ dquote ++ newline ++ newline
               ++ "❌ **AI Error**: " ++ message ++ newline ++ newline
               ++ "📋 **Found memories**: " ++ searchResults))).
Proof. reflexivity. Qed.

Lemma ask_never_throws {ops : StringOps} (q : string) (env : Env) :
  never_throws (askMemoryWithAI (JsString q) env).
Proof.
  rewrite ask_unfold. destruct (String.eqb (trim q) ""); [constructor|].
  apply never_throws_bind; [apply searchMemories_never_throws|].
  intros found. apply never_throws_try_catch. constructor.
Qed.

(** A falsy argument is replaced by the empty string. *)
Lemma js_or_falsy (v : JsVal) : truthy v = false -> js_or v (JsString "") = JsString "".
Proof. unfold js_or. now intros ->. Qed.

Lemma result_of_never_throws {W : Type} (w : Collab W) (s : W)
    (p : Prog string) (rid : JsVal) :
  never_throws p ->
  exists text,
    outcome (run w (bind p (fun t => Ret (text_result t rid))) s)
    = Returned (text_result text rid).
Proof.
  intros H. destruct (never_throws_run w H s) as [text E].
  exists text. rewrite run_bind, E. reflexivity.
Qed.

Lemma strict_eq_string_false (v : JsVal) (lit : string) :
  v <> JsString lit -> strict_eq_string v lit = false.
Proof.
  intros H. destruct v; simpl; try reflexivity.
  destruct (String.eqb_spec s lit); [subst; now elim H | reflexivity].
Qed.

Lemma serve_stores {ops : StringOps} api (k : string) (values : list string)
    (rid : JsVal) (env : Env) (ns : Namespace) :
  k <> "" -> Forall (fun v => v <> "") values ->
  serve (memory api) (stores k values rid) env ns
  = fold_left (fun acc v => ns_put k v acc) values ns.
Proof.
  intros Hk Hv. revert ns. induction Hv as [|v values Hv _ IH]; intros ns; simpl.
  - reflexivity.
  - rewrite store_on_memory by assumption. apply IH.
Qed.

Lemma unique_keys_puts (k : string) (values : list string) (ns : Namespace) :
  unique_keys ns -> unique_keys (fold_left (fun acc v => ns_put k v acc) values ns).
Proof.
  revert ns. induction values as [|v values IH]; intros ns U; simpl; [exact U|].
  now apply IH, unique_keys_put.
Qed.

Lemma filter_swap (A : Type) (f g : A -> bool) (l : list A) :
  filter f (filter g l) = filter g (filter f l).
Proof.
  induction l as [|x l IH]; simpl; [reflexivity|].
  destruct (f x) eqn:Ef, (g x) eqn:Eg; simpl; rewrite ?Ef, ?Eg, IH; reflexivity.
Qed.

Lemma calls_only_weaken (P Q : Call -> Prop) (A : Type) (p : Prog A) :
  (forall c, P c -> Q c) -> calls_only P p -> calls_only Q p.
Proof. intros PQ H; induction H; constructor; auto. Qed.

(** A program that makes no [put] leaves the in-memory namespace as it
    was. *)
Lemma memory_unchanged api (A : Type) (p : Prog A) (ns : Namespace) :
  calls_only (fun c => ~ is_write c) p -> final (run (memory api) p ns) = ns.
Proof.
  induction 1 as [a|e|c k Hc _ IH]; simpl; try reflexivity.
  destruct c; simpl; try apply IH. now elim Hc.
Qed.

Lemma ask_writes_nothing {ops : StringOps} (question : JsVal) (env : Env) :
  calls_only (fun c => ~ is_write c) (askMemoryWithAI question env).
Proof.
  unfold askMemoryWithAI.
  apply calls_only_bind; [apply calls_only_lift|]. intros q.
  destruct (String.eqb (trim q) ""); [constructor|].
  apply calls_only_bind.
  - apply calls_only_weaken with (P := is_read); [|apply searchMemories_reads_only].
    now intros [].
  - intros found. apply calls_only_try_catch; [|constructor].
    apply calls_only_bind; [apply calls_only_await; now intros []|].
    intros response. destruct (negb (ok response)); [constructor|].
    apply calls_only_bind; [apply calls_only_lift|]. intros data.
    apply calls_only_bind; [apply calls_only_lift|]. constructor.
Qed.

Lemma search_tool_reads_only {ops : StringOps} (a : option Args) (rid : JsVal) (env : Env) :
  calls_only is_read (handleMCP (tool_call (JsString "search_memory") a rid) env).
Proof.
  rewrite handleMCP_search.
  apply calls_only_bind; [apply searchMemories_reads_only | constructor].
Qed.

Lemma ask_tool_writes_nothing {ops : StringOps} (a : option Args) (rid : JsVal) (env : Env) :
  calls_only (fun c => ~ is_write c)
    (handleMCP (tool_call (JsString "ask_memory") a rid) env).
Proof.
  rewrite handleMCP_ask.
  apply calls_only_bind; [apply ask_writes_nothing | constructor].
Qed.

Lemma matches_empty_query {ops : StringOps} (entry : string * option string) :
  matches "" entry = has_value entry.
Proof.
  unfold matches, has_value. destruct (snd entry) as [v|]; [|reflexivity].
  now rewrite toLowerCase_empty, includes_empty, andb_true_r.
Qed.

Lemma Returned_inj (A : Type) (a b : A) : Returned a = Returned b -> a = b.
Proof. now intros [= ->]. Qed.

(** When [list] throws, the search answers with the message. *)
Lemma search_list_failure {ops : StringOps} (W : Type) (w : Collab W) (s : W)
    (query : JsVal) (env : Env) (e : string) :
  fst (w KvList s) = Thrown e ->
  outcome (run w (searchMemories query env) s) = Returned ("Search error: " ++ e).
Proof.
  intros H. unfold searchMemories. simpl.
  destruct (w KvList s) as [reply s']. simpl in H. subst reply. reflexivity.
Qed.

(** The answer of [askMemoryWithAI] when the completion call fails after
    the search returned [found]. *)
Lemma ask_fallback {ops : StringOps} (W : Type) (w : Collab W) (s : W)
    (q : string) (env : Env) (found failure : string) :
  trim q <> "" ->
  outcome (run w (searchMemories (JsString q) env) s) = Returned found ->
  completion_fails w (final (run w (searchMemories (JsString q) env) s))
    (completion_request env (prompt_for q found)) failure ->
  outcome (run w (askMemoryWithAI (JsString q) env) s)
  = Returned
      ("🧠 **Memory Query**: " ++ dquote ++ q ++ dquote ++ newline ++ newline
       ++ "❌ **AI Error**: " ++ failure ++ newline ++ newline
       ++ "📋 **Found memories**: " ++ found).
Proof.
  intros T E Hf. rewrite ask_unfold.
  destruct (String.eqb_spec (trim q) "") as [|_]; [contradiction|].
  rewrite run_bind, E. cbv zeta. rewrite run_try_catch. cbn [bind await run].
  unfold completion_fails in Hf.
  destruct (w (Fetch (completion_request env (prompt_for q found)))
              (final (run w (searchMemories (JsString q) env) s)))
    as [reply s'].
  cbn [fst] in Hf. destruct Hf as [->|(response & -> & Hs & ->)].
  - reflexivity.
  - cbn [lift bind]. unfold ok.
    replace ((200 <=? status response) && (status response <=? 299)) with false
      by (symmetry; apply andb_false_iff; rewrite Z.leb_gt, Z.leb_gt; lia).
    reflexivity.
Qed.

(** A value has a text unless it is the object whose [toString] is not
    callable. *)
Lemma to_string_returns (v : JsVal) :
  (exists t, to_string v = Returned t) <-> v <> JsUnprintable.
Proof.
  split.
  - intros [t E] ->. discriminate E.
  - intros N. destruct v as [| |[|]| | | |]; try (eexists; reflexivity).
    now elim N.
Qed.

(* ================================================================== *)
(** ** The claims *)

Example initialize_answers :
  run (memory api_down)
    (handleMCP {| method := JsString "initialize"; params := Absent; id := JsNumber 1 |}
       unconfigured)
    []
  = {| outcome := Returned (Result (Initialized "0.1.0" ["tools"; "prompts"]) (JsNumber 1));
       final := [];
       calls := [] |}.
Proof. reflexivity. Qed.

Example tools_list_names :
  outcome
    (run (memory api_down)
       (handleMCP {| method := JsString "tools/list"; params := Absent; id := JsNull |}
          unconfigured)
       [])
  = Returned (Result (ToolCatalog tools) JsNull)
  /\ map tool_name tools = ["ask_memory"; "store_memory"; "search_memory"].
Proof. split; reflexivity. Qed.

Example search_ignores_case :
  outcome
    (run (memory api_down)
       (handleMCP (search_memory (JsString "ALP") JsNull) unconfigured)
       [("alpha", Some "x"); ("beta", Some "Alpine")])
  = Returned
      (text_result
         ("Found 2 memories:" ++ newline ++ "• alpha: x" ++ newline ++ "• beta: Alpine")
         JsNull).
Proof. reflexivity. Qed.

Example search_failure_is_text :
  outcome
    (run (failing "KV down")
       (handleMCP (search_memory (JsString "a") JsNull) unconfigured) tt)
  = Returned (text_result "Search error: KV down" JsNull).
Proof. reflexivity. Qed.

Example number_query_is_a_search_error :
  outcome
    (run (memory api_down)
       (handleMCP (search_memory (JsNumber 5) JsNull) unconfigured)
       [("a", Some "b")])
  = Returned (text_result "Search error: query.toLowerCase is not a function" JsNull).
Proof. reflexivity. Qed.

Example number_question_throws :
  run (memory api_down)
    (handleMCP (ask_memory (JsNumber 7) JsNull) unconfigured) [("a", Some "b")]
  = {| outcome := Thrown "question.trim is not a function";
       final := [("a", Some "b")];
       calls := [] |}.
Proof. reflexivity. Qed.

Example ask_answers :
  outcome
    (run (memory (api_answering {| status := 200; json := Returned [Some "  It is b. "] |}))
       (handleMCP (ask_memory (JsString "a") JsNull) unconfigured)
       [("a", Some "b")])
  = Returned
      (text_result
         ("🧠 **Memory Query**: " ++ dquote ++ "a" ++ dquote ++ newline ++ newline
          ++ "📝 **Response**: It is b.")
         JsNull).
Proof. reflexivity. Qed.

(** C1.  For non-empty strings [k] and [v], over any in-memory namespace,
    a [tools/call] of [store_memory] with [{key: k, value: v}] followed
    by a [tools/call] of [search_memory] with [{query: k}] returns a
    result envelope whose single text block is a found-list with the
    bullet line of [k] and [v] among its lines, so that the text contains
    [k: v]. *)
Theorem store_then_search_finds {ops : StringOps} api (ns : Namespace) (k v : string)
    (id1 id2 : JsVal) (env : Env) :
  k <> "" -> v <> "" ->
  let stored :=
    run (memory api) (handleMCP (store_memory (JsString k) (JsString v) id1) env) ns in
  exists results,
    outcome (run (memory api) (handleMCP (search_memory (JsString k) id2) env)
               (final stored))
    = Returned
        (Result
           (ToolOutput
              [{| type := "text";
                  text := "Found " ++ string_of_nat (List.length results)
                          ++ " memories:" ++ newline ++ join newline results |}])
           id2)
    /\ In ("• " ++ k ++ ": " ++ v) results
    /\ includes
         ("Found " ++ string_of_nat (List.length results) ++ " memories:"
          ++ newline ++ join newline results)
         (k ++ ": " ++ v) = true.
Proof.
  intros Hk Hv stored. subst stored. rewrite store_on_memory by assumption.
  cbn [final]. unfold search_memory. rewrite handleMCP_search.
  simpl args_or_default. cbn [query].
  rewrite js_or_string, run_bind, search_on_memory_lines. cbn [outcome final calls].
  set (results := lines k (ns_put k v ns) (ns_keys (ns_put k v ns))).
  assert (Hin : In ("• " ++ k ++ ": " ++ v) results).
  { apply in_flat_map. exists k. split; [apply ns_put_listed|].
    rewrite ns_get_put_same. unfold matches; cbn [fst snd].
    destruct (String.eqb_spec v "") as [|_]; [contradiction|].
    rewrite includes_refl. now left. }
  exists results. split; [|split; [exact Hin|]].
  - destruct results as [|line results]; [contradiction|]. reflexivity.
  - do 4 apply includes_append_l.
    apply includes_trans with (m := "• " ++ k ++ ": " ++ v).
    + now apply includes_join.
    + apply includes_append_l, includes_refl.
Qed.

(** C1 at [k = "a"], [v = "b"], over the empty namespace. *)
Lemma store_then_search_finds_witness :
  exists results,
    outcome
      (run (memory api_down)
         (handleMCP (search_memory (JsString "a") (JsNumber 2)) unconfigured)
         (final
            (run (memory api_down)
               (handleMCP (store_memory (JsString "a") (JsString "b") (JsNumber 1))
                  unconfigured)
               [])))
    = Returned
        (Result
           (ToolOutput
              [{| type := "text";
                  text := "Found " ++ string_of_nat (List.length results)
                          ++ " memories:" ++ newline ++ join newline results |}])
           (JsNumber 2))
    /\ In ("• " ++ "a" ++ ": " ++ "b") results
    /\ includes
         ("Found " ++ string_of_nat (List.length results) ++ " memories:"
          ++ newline ++ join newline results)
         ("a" ++ ": " ++ "b") = true.
Proof.
  apply (@store_then_search_finds AsciiOps.ops api_down [] "a" "b"
           (JsNumber 1) (JsNumber 2) unconfigured); discriminate.
Defined.

(** C2, as worded, fails on a namespace that holds an empty value: the
    key [abc] contains the query [a], and the search reports nothing. *)
Lemma search_skips_empty_value :
  ~ reports_all_containing api_down unconfigured [("abc", Some "")] "a" JsNull.
Proof. unfold reports_all_containing. vm_compute. discriminate. Qed.

(** C2, amended.  Over an in-memory namespace with unique keys, a search
    for the string [q] calls [list] and then [get] on each key, leaves
    the namespace as it was, and reports exactly the entries whose value
    is a non-empty string and for which the lowered query occurs in the
    lowered key or in the lowered value: a count and one bullet line per
    such entry, in enumeration order.  When no entry passes, the text is
    the no-match sentence with the query between double quotes. *)
Theorem search_reports_matching {ops : StringOps} api (ns : Namespace)
    (q : string) (rid : JsVal) (env : Env) :
  unique_keys ns ->
  run (memory api) (handleMCP (search_memory (JsString q) rid) env) ns
  = {| outcome :=
         Returned
           (Result
              (ToolOutput
                 [{| type := "text";
                     text := search_text q (filter (matches q) ns) |}])
              rid);
       final := ns;
       calls := KvList :: map KvGet (ns_keys ns) |}
  /\ (forall k v,
        In (k, v) (filter (matches q) ns) <->
        In (k, v) ns
        /\ exists s, v = Some s /\ s <> ""
           /\ (includes (toLowerCase k) (toLowerCase q) = true
               \/ includes (toLowerCase s) (toLowerCase q) = true))
  /\ (filter (matches q) ns = [] ->
      search_text q (filter (matches q) ns)
      = "No memories found matching " ++ dquote ++ q ++ dquote).
Proof.
  intros U. split; [now apply search_memory_on_memory|]. split.
  - intros k v. rewrite filter_In. unfold matches; cbn [fst snd].
    split.
    + intros [Hin Hm]. split; [exact Hin|].
      destruct v as [s|]; [|discriminate]. exists s.
      apply andb_true_iff in Hm as [Hs Hq].
      apply orb_true_iff in Hq.
      destruct (String.eqb_spec s ""); [discriminate|]. auto.
    + intros [Hin (s & -> & Hs & Hq)]. split; [exact Hin|].
      apply orb_true_iff in Hq. rewrite Hq.
      now destruct (String.eqb_spec s "").
  - now intros ->.
Qed.

(** C2, amended, on a namespace of three entries: the query [AL] is
    found in the key [Alpha] and, lowered, in the value of [gamma]; the
    entry [salt] holds an empty value. *)
Lemma search_reports_matching_witness :
  run (memory api_down)
    (handleMCP (search_memory (JsString "AL") JsNull) unconfigured)
    [("Alpha", Some "one"); ("salt", Some ""); ("gamma", Some "a small note")]
  = {| outcome :=
         Returned
           (Result
              (ToolOutput
                 [{| type := "text";
                     text := "Found 2 memories:" ++ newline
                             ++ "• Alpha: one" ++ newline
                             ++ "• gamma: a small note" |}])
              JsNull);
       final :=
         [("Alpha", Some "one"); ("salt", Some ""); ("gamma", Some "a small note")];
       calls := [KvList; KvGet "Alpha"; KvGet "salt"; KvGet "gamma"] |}.
Proof.
  refine (proj1 (@search_reports_matching AsciiOps.ops api_down
                   [("Alpha", Some "one"); ("salt", Some "");
                    ("gamma", Some "a small note")]
                   "AL" JsNull unconfigured _)).
  unique_keys_by_cases.
Defined.

(** C3, as worded, fails for [store_memory] when the store's [put]
    throws: the exception leaves the dispatcher, which returns no
    envelope, and the [POST /mcp] handler answers with status 500 and an
    error envelope of code -32603.  It fails as well for a tool whose
    [arguments] is [null], and for a [store_memory] whose key has no
    text, the [put] having returned. *)
Lemma store_failure_is_not_a_result :
  ~ returns_result
      (run (failing "KV down")
         (handleMCP (store_memory (JsString "a") (JsString "b") (JsNumber 1))
            unconfigured)
         tt)
  /\ outcome
       (run (failing "KV down")
          (fetch_mcp
             (Returned (store_memory (JsString "a") (JsString "b") (JsNumber 1)))
             unconfigured)
          tt)
     = Returned {| http_status := 500;
                   http_body := Error (-32603) "KV down" JsNull |}
  /\ run (memory api_down)
       (handleMCP (tool_call_with (JsString "search_memory") Null (JsNumber 1))
          unconfigured)
       []
     = {| outcome := Thrown "Cannot read properties of null (reading 'query')";
          final := [];
          calls := [] |}
  /\ run unreadable_b
       (handleMCP (store_memory JsUnprintable (JsString "b") (JsNumber 1)) unconfigured)
       tt
     = {| outcome := Thrown "Cannot convert object to primitive value";
          final := tt;
          calls := [KvPut JsUnprintable (JsString "b")] |}.
Proof.
  split; [|repeat split].
  intros (result & rid & H). vm_compute in H. discriminate H.
Qed.

(** C3, amended.  Under every behaviour of the key-value store and of the
    completion API, a [tools/call] whose [arguments] are absent or an
    object returns a result envelope with one text block: of
    [search_memory], whatever the query; of [ask_memory], when the
    question is a string or a falsy value; of [store_memory], when the
    key or the value is missing or falsy, or when the store's [put]
    returns and the key has a text.  The text tells the failure: the
    fixed sentence for a missing key or value, [Search error: ] and the
    message when [list] throws, and a text that contains the failure
    description when the completion call fails. *)
Theorem tool_failures_are_results {ops : StringOps} (W : Type) (w : Collab W)
    (s : W) (tool : string) (a : option Args) (rid : JsVal) (env : Env) :
  tool = "search_memory"
  \/ (tool = "ask_memory"
      /\ (truthy (question (args_or_default a)) = false
          \/ exists q, question (args_or_default a) = JsString q))
  \/ (tool = "store_memory"
      /\ (truthy (key (args_or_default a)) = false
          \/ truthy (value (args_or_default a)) = false
          \/ exists done stored,
               fst (w (KvPut (key (args_or_default a)) (value (args_or_default a))) s)
               = Returned done
               /\ to_string (key (args_or_default a)) = Returned stored)) ->
  exists t,
    outcome (run w (handleMCP (tool_call (JsString tool) a rid) env) s)
    = Returned (Result (ToolOutput [{| type := "text"; text := t |}]) rid)
    /\ (tool = "store_memory" ->
        truthy (key (args_or_default a)) = false
        \/ truthy (value (args_or_default a)) = false ->
        t = "❌ Both key and value are required")
    /\ (tool = "search_memory" ->
        forall e, fst (w KvList s) = Thrown e -> t = "Search error: " ++ e)
    /\ (tool = "ask_memory" ->
        forall q found failure,
          question (args_or_default a) = JsString q -> trim q <> "" ->
          outcome (run w (searchMemories (JsString q) env) s) = Returned found ->
          completion_fails w (final (run w (searchMemories (JsString q) env) s))
            (completion_request env (prompt_for q found)) failure ->
          includes t ("❌ **AI Error**: " ++ failure) = true).
Proof.
  intros [->|[[-> Hq]|[-> Hs]]].
  - rewrite handleMCP_search.
    destruct (never_throws_run w
                (searchMemories_never_throws
                   (js_or (query (args_or_default a)) (JsString "")) env) s)
      as [t E].
    exists t. rewrite run_bind, E. split; [reflexivity|].
    split; [discriminate|]. split; [|discriminate].
    intros _ e He. rewrite (@search_list_failure _ _ w s _ env e He) in E.
    symmetry. now apply Returned_inj in E.
  - rewrite handleMCP_ask.
    assert (E : exists q, js_or (question (args_or_default a)) (JsString "") = JsString q
                          /\ (forall q', question (args_or_default a) = JsString q' -> q' = q)).
    { destruct Hq as [F|[q E]].
      - exists "". split; [now apply js_or_falsy|].
        intros q' E. rewrite E in F. simpl in F.
        now destruct (String.eqb_spec q' "").
      - exists q. rewrite E. split; [apply js_or_string | now intros q' [= ->]]. }
    destruct E as (q & -> & Eq).
    destruct (never_throws_run w (ask_never_throws q env) s) as [t E].
    exists t. rewrite run_bind, E. split; [reflexivity|].
    split; [discriminate|]. split; [discriminate|].
    intros _ q' found failure Eq' T Hfound Hfail.
    apply Eq in Eq' as ->.
    rewrite (@ask_fallback _ _ w s q env found failure T Hfound Hfail) in E.
    apply Returned_inj in E. subst t.
    do 6 apply includes_append_l.
    rewrite <- append_assoc. apply includes_append_r, includes_refl.
  - rewrite handleMCP_store. cbv zeta.
    destruct (truthy (key (args_or_default a))) eqn:Ek;
      [destruct (truthy (value (args_or_default a))) eqn:Ev|]; simpl.
    + destruct Hs as [F|[F|(done & stored & E & R)]]; try discriminate.
      destruct (w (KvPut (key (args_or_default a)) (value (args_or_default a))) s)
        as [[u|e] s']; simpl in *; [|discriminate].
      rewrite R. simpl.
      eexists. split; [reflexivity|].
      split; [now intros _ [F|F] | split; discriminate].
    + eexists. split; [reflexivity|]. split; [reflexivity | split; discriminate].
    + eexists. split; [reflexivity|]. split; [reflexivity | split; discriminate].
Qed.

(** C3, amended, on [ask_memory] with every call failing: the search
    error and the completion error both end up in the text. *)
Lemma tool_failures_are_results_witness :
  exists t,
    outcome
      (run (failing "down")
         (handleMCP
            (tool_call (JsString "ask_memory")
               (Some {| question := JsString "who?"; key := JsUndefined;
                        value := JsUndefined; query := JsUndefined |})
               (JsNumber 7))
            unconfigured)
         tt)
    = Returned (Result (ToolOutput [{| type := "text"; text := t |}]) (JsNumber 7))
    /\ includes t ("❌ **AI Error**: " ++ "down") = true.
Proof.
  destruct (@tool_failures_are_results AsciiOps.ops unit (failing "down") tt
              "ask_memory"
              (Some {| question := JsString "who?"; key := JsUndefined;
                       value := JsUndefined; query := JsUndefined |})
              (JsNumber 7) unconfigured)
    as (t & E & _ & _ & H).
  - right; left. split; [reflexivity|]. right. now exists "who?".
  - exists t. split; [exact E|].
    apply (H eq_refl "who?" "Search error: down" "down");
      [reflexivity | discriminate | reflexivity | now left].
Defined.

(** C4, as worded, fails when [arguments] is [null], which has neither
    key nor value: destructuring it throws, the dispatcher returns no
    envelope, and the [POST /mcp] handler answers with status 500 and the
    error -32603. *)
Lemma null_arguments_are_not_a_result :
  ~ returns_result
      (run (memory api_down)
         (handleMCP (tool_call_with (JsString "store_memory") Null (JsNumber 3))
            unconfigured)
         [])
  /\ outcome
       (run (memory api_down)
          (fetch midnight
             {| request_method := "POST"; pathname := "/mcp";
                request_json :=
                  Returned (tool_call_with (JsString "store_memory") Null (JsNumber 3)) |}
             plain_env)
          [])
     = Returned
         {| response_status := 500;
            response_headers := [];
            payload :=
              Rpc (Error (-32603)
                     "Cannot destructure property 'key' of 'args' as it is null."
                     JsNull) |}.
Proof.
  split; [|reflexivity].
  intros (result & rid & H). vm_compute in H. discriminate H.
Qed.

(** C4, amended.  A [tools/call] of [store_memory] whose [arguments] are
    absent or an object, and whose key or value is absent or falsy,
    makes no call on any collaborator and returns a result envelope
    whose single text block is the fixed sentence that both key and
    value are required. *)
Theorem store_memory_requires_both {ops : StringOps} (W : Type) (w : Collab W)
    (s : W) (a : option Args) (rid : JsVal) (env : Env) :
  truthy (key (args_or_default a)) = false
  \/ truthy (value (args_or_default a)) = false ->
  run w (handleMCP (tool_call (JsString "store_memory") a rid) env) s
  = {| outcome :=
         Returned
           (Result
              (ToolOutput
                 [{| type := "text";
                     text := "❌ Both key and value are required" |}])
              rid);
       final := s;
       calls := [] |}.
Proof.
  intros H. rewrite handleMCP_store. cbv zeta.
  destruct H as [-> | ->]; [reflexivity|].
  now rewrite orb_true_r.
Qed.

(** C4 on [{key: "a"}], the value absent. *)
Lemma store_memory_requires_both_witness :
  run (memory api_down)
    (handleMCP
       (tool_call (JsString "store_memory")
          (Some {| question := JsUndefined; key := JsString "a";
                   value := JsUndefined; query := JsUndefined |})
          (JsNumber 3))
       unconfigured)
    [("a", Some "kept")]
  = {| outcome :=
         Returned
           (Result
              (ToolOutput
                 [{| type := "text";
                     text := "❌ Both key and value are required" |}])
              (JsNumber 3));
       final := [("a", Some "kept")];
       calls := [] |}.
Proof.
  apply (@store_memory_requires_both AsciiOps.ops Namespace (memory api_down)
           [("a", Some "kept")] _ (JsNumber 3) unconfigured).
  right. reflexivity.
Defined.

(** C5, as worded, fails for a name that has no text, as a decoded
    object whose [toString] is not callable: the template literal of the
    message throws, the dispatcher returns no envelope, and the
    [POST /mcp] handler answers with status 500 and the error -32603.
    The same holds of a method that has no text, and of a [tools/call]
    whose [params] is [null]. *)
Lemma name_without_text_is_not_rejected :
  ~ (exists message,
       outcome
         (run (memory api_down)
            (handleMCP (tool_call JsUnprintable None (JsNumber 4)) unconfigured) [])
       = Returned (Error (-32601) message (JsNumber 4)))
  /\ outcome
       (run (memory api_down)
          (fetch midnight
             {| request_method := "POST"; pathname := "/mcp";
                request_json := Returned (tool_call JsUnprintable None (JsNumber 4)) |}
             plain_env)
          [])
     = Returned
         {| response_status := 500;
            response_headers := [];
            payload :=
              Rpc (Error (-32603) "Cannot convert object to primitive value" JsNull) |}
  /\ run (memory api_down)
       (handleMCP {| method := JsUnprintable; params := Absent; id := JsNumber 4 |}
          unconfigured)
       []
     = {| outcome := Thrown "Cannot convert object to primitive value";
          final := [];
          calls := [] |}
  /\ run (memory api_down)
       (handleMCP {| method := JsString "tools/call"; params := Null; id := JsNumber 4 |}
          unconfigured)
       []
     = {| outcome :=
            Thrown "Cannot destructure property 'name' of 'params' as it is null.";
          final := [];
          calls := [] |}.
Proof.
  split; [|repeat split].
  intros (message & H). vm_compute in H. discriminate H.
Qed.

(** C5, amended.  A [tools/call] whose [params] is absent or an object
    and whose name is none of the three tool names and has the text [t]
    returns the error envelope of code -32601 with the message
    [Unknown tool: t]; a request whose method is none of [initialize],
    [tools/list] and [tools/call] and has the text [t] returns the error
    envelope of code -32601 with the message [Unknown method: t].
    Neither makes a call on a collaborator.  Every value has a text but
    an object whose [toString] is not callable: a string is its own
    text, a missing name reads [undefined], [null] and the booleans read
    as they are written, an array or object has the text [String] gives
    it, and a number reads as JavaScript prints it, with all its digits
    below 10^21 and in exponent form from there on. *)
Theorem unknown_tool_and_method {ops : StringOps} (W : Type) (w : Collab W)
    (s : W) (body : Body) (env : Env) :
  (forall tool t,
     method body = JsString "tools/call" ->
     requested_tool (params body) = Some tool ->
     tool <> JsString "ask_memory" ->
     tool <> JsString "store_memory" ->
     tool <> JsString "search_memory" ->
     to_string tool = Returned t ->
     run w (handleMCP body env) s
     = {| outcome := Returned (Error (-32601) ("Unknown tool: " ++ t) (id body));
          final := s;
          calls := [] |})
  /\ (forall t,
        method body <> JsString "initialize" ->
        method body <> JsString "tools/list" ->
        method body <> JsString "tools/call" ->
        to_string (method body) = Returned t ->
        run w (handleMCP body env) s
        = {| outcome := Returned (Error (-32601) ("Unknown method: " ++ t) (id body));
             final := s;
             calls := [] |})
  /\ (forall text, to_string (JsString text) = Returned text)
  /\ to_string JsUndefined = Returned "undefined"
  /\ to_string JsNull = Returned "null"
  /\ to_string (JsBool true) = Returned "true"
  /\ to_string (JsBool false) = Returned "false"
  /\ (forall repr, to_string (JsObject repr) = Returned repr)
  /\ (forall v, (exists t, to_string v = Returned t) <-> v <> JsUnprintable)
  /\ map (fun n => to_string (JsNumber n))
       [0; 7; -42; 2 ^ 53; 2 ^ 53 + 1; 10 ^ 20; 123456789012345678901;
        10 ^ 21 - 1; 10 ^ 21; - 10 ^ 21; 15 * 10 ^ 20; 2 ^ 100]
     = map (fun text => Returned text)
         ["0"; "7"; "-42"; "9007199254740992"; "9007199254740992";
          "100000000000000000000"; "123456789012345680000";
          "1e+21"; "1e+21"; "-1e+21"; "1.5e+21"; "1.2676506002282294e+30"].
Proof.
  split; [|split; [|repeat split; apply to_string_returns]].
  - intros tool t Hm Hp H1 H2 H3 Ht. unfold handleMCP. rewrite Hm. simpl.
    destruct (params body) as [| |p]; simpl in Hp; [| discriminate |];
      injection Hp as <-; cbn [destructured lift bind name no_params];
      rewrite !strict_eq_string_false by assumption; now rewrite Ht.
  - intros t H1 H2 H3 Ht. unfold handleMCP.
    rewrite !strict_eq_string_false by assumption. now rewrite Ht.
Qed.

(** C5, amended, on the tool name [delete_memory], on a request with no
    [params], on the method [shutdown] and on the method 10^21. *)
Lemma unknown_tool_and_method_witness :
  run (memory api_down)
    (handleMCP (tool_call (JsString "delete_memory") None (JsNumber 4)) unconfigured)
    []
  = {| outcome := Returned (Error (-32601) "Unknown tool: delete_memory" (JsNumber 4));
       final := [];
       calls := [] |}
  /\ run (memory api_down)
       (handleMCP
          {| method := JsString "tools/call"; params := Absent; id := JsNumber 4 |}
          unconfigured)
       []
     = {| outcome := Returned (Error (-32601) "Unknown tool: undefined" (JsNumber 4));
          final := [];
          calls := [] |}
  /\ run (memory api_down)
       (handleMCP {| method := JsString "shutdown"; params := Null; id := JsNumber 5 |}
          unconfigured)
       []
     = {| outcome := Returned (Error (-32601) "Unknown method: shutdown" (JsNumber 5));
          final := [];
          calls := [] |}
  /\ run (memory api_down)
       (handleMCP
          {| method := JsNumber 1000000000000000000000; params := Absent;
             id := JsNumber 5 |}
          unconfigured)
       []
     = {| outcome := Returned (Error (-32601) "Unknown method: 1e+21" (JsNumber 5));
          final := [];
          calls := [] |}.
Proof.
  split; [|split; [|split]].
  - apply (proj1 (@unknown_tool_and_method AsciiOps.ops Namespace (memory api_down) []
                    (tool_call (JsString "delete_memory") None (JsNumber 4))
                    unconfigured) (JsString "delete_memory") "delete_memory");
      try reflexivity; discriminate.
  - apply (proj1 (@unknown_tool_and_method AsciiOps.ops Namespace (memory api_down) []
                    {| method := JsString "tools/call"; params := Absent;
                       id := JsNumber 4 |}
                    unconfigured) JsUndefined "undefined");
      try reflexivity; discriminate.
  - apply (proj1 (proj2 (@unknown_tool_and_method AsciiOps.ops Namespace
                           (memory api_down) []
                           {| method := JsString "shutdown"; params := Null;
                              id := JsNumber 5 |}
                           unconfigured)) "shutdown");
      try reflexivity; discriminate.
  - apply (proj1 (proj2 (@unknown_tool_and_method AsciiOps.ops Namespace
                           (memory api_down) []
                           {| method := JsNumber 1000000000000000000000;
                              params := Absent; id := JsNumber 5 |}
                           unconfigured)) "1e+21");
      try (vm_compute; reflexivity); discriminate.
Defined.

(** C6.  When the question is absent or falsy, or is a string that
    [trim] empties, [ask_memory] returns the fixed request for a
    question and makes no call at all: none on the key-value store and
    none on the completion API. *)
Theorem blank_question_calls_nothing {ops : StringOps} (W : Type) (w : Collab W)
    (s : W) (a : option Args) (rid : JsVal) (env : Env) :
  truthy (question (args_or_default a)) = false
  \/ (exists q, question (args_or_default a) = JsString q /\ trim q = "") ->
  run w (handleMCP (tool_call (JsString "ask_memory") a rid) env) s
  = {| outcome :=
         Returned
           (Result
              (ToolOutput
                 [{| type := "text";
                     text := "❓ Please ask a question about your memory." |}])
              rid);
       final := s;
       calls := [] |}.
Proof.
  intros H. rewrite handleMCP_ask.
  assert (E : exists q, js_or (question (args_or_default a)) (JsString "") = JsString q
                        /\ trim q = "").
  { destruct H as [F|(q & E & T)].
    - exists "". split; [now apply js_or_falsy | apply trim_empty].
    - exists q. rewrite E. split; [apply js_or_string | exact T]. }
  destruct E as (q & -> & T). rewrite ask_unfold, T. reflexivity.
Qed.

(** C6 on a question of spaces, a tab and a line feed, with collaborators
    that would throw if called. *)
Lemma blank_question_calls_nothing_witness :
  run (failing "called")
    (handleMCP (ask_memory (JsString ("  " ++ String "009"%char newline)) JsNull)
       unconfigured)
    tt
  = {| outcome :=
         Returned
           (Result
              (ToolOutput
                 [{| type := "text";
                     text := "❓ Please ask a question about your memory." |}])
              JsNull);
       final := tt;
       calls := [] |}.
Proof.
  apply (@blank_question_calls_nothing AsciiOps.ops unit (failing "called") tt
           _ JsNull unconfigured).
  right. exists ("  " ++ String "009"%char newline). split; reflexivity.
Defined.

(** C7.  For a question that [trim] does not empty, under every
    behaviour of the collaborators: the search made for the question
    returns a text, and whenever the completion call then fails, by a
    rejected [fetch] or by a response whose status is outside 200-299,
    [ask_memory] returns the text made of the question between double
    quotes, the AI-error notice with the failure description (the
    rejection message, or [OpenAI API error: ] and the status), and the
    text of the search as found memories. *)
Theorem completion_failure_falls_back {ops : StringOps} (W : Type) (w : Collab W)
    (s : W) (q : string) (rid : JsVal) (env : Env) :
  trim q <> "" ->
  exists found,
    outcome (run w (searchMemories (JsString q) env) s) = Returned found
    /\ forall failure,
         completion_fails w (final (run w (searchMemories (JsString q) env) s))
           (completion_request env (prompt_for q found)) failure ->
         let answer :=
           "🧠 **Memory Query**: " ++ dquote ++ q ++ dquote ++ newline ++ newline
           ++ "❌ **AI Error**: " ++ failure ++ newline ++ newline
           ++ "📋 **Found memories**: " ++ found in
         outcome (run w (handleMCP (ask_memory (JsString q) rid) env) s)
         = Returned (Result (ToolOutput [{| type := "text"; text := answer |}]) rid)
         /\ includes answer q = true
         /\ includes answer ("❌ **AI Error**: " ++ failure) = true
         /\ includes answer found = true.
Proof.
  intros T.
  destruct (never_throws_run w (searchMemories_never_throws (JsString q) env) s)
    as [found E].
  exists found. split; [exact E|]. intros failure Hf answer.
  split; [|split; [|split]].
  - unfold ask_memory. rewrite handleMCP_ask. simpl args_or_default. cbn [question].
    rewrite js_or_string, run_bind.
    rewrite (@ask_fallback _ _ w s q env found failure T E Hf). reflexivity.
  - subst answer. do 2 apply includes_append_l.
    apply includes_append_r, includes_refl.
  - subst answer. do 6 apply includes_append_l.
    rewrite <- append_assoc. apply includes_append_r, includes_refl.
  - subst answer. do 11 apply includes_append_l. apply includes_refl.
Qed.

(** C7 on the question [a] over a namespace with one entry: once with a
    completion API that is down, once with one that answers 503. *)
Lemma completion_failure_falls_back_witness :
  outcome
    (run (memory api_down)
       (handleMCP (ask_memory (JsString "a") JsNull) unconfigured)
       [("a", Some "b")])
  = Returned
      (text_result
         ("🧠 **Memory Query**: " ++ dquote ++ "a" ++ dquote ++ newline ++ newline
          ++ "❌ **AI Error**: fetch failed" ++ newline ++ newline
          ++ "📋 **Found memories**: Found 1 memories:" ++ newline ++ "• a: b")
         JsNull)
  /\ outcome
       (run (memory (api_answering {| status := 503; json := Returned [] |}))
          (handleMCP (ask_memory (JsString "a") JsNull) unconfigured)
          [("a", Some "b")])
     = Returned
         (text_result
            ("🧠 **Memory Query**: " ++ dquote ++ "a" ++ dquote ++ newline ++ newline
             ++ "❌ **AI Error**: OpenAI API error: 503" ++ newline ++ newline
             ++ "📋 **Found memories**: Found 1 memories:" ++ newline ++ "• a: b")
            JsNull).
Proof.
  assert (T : @trim AsciiOps.ops "a" <> "") by discriminate.
  split.
  - destruct (@completion_failure_falls_back AsciiOps.ops Namespace (memory api_down)
                [("a", Some "b")] "a" JsNull unconfigured T)
      as (found & E & H).
    vm_compute in E. injection E as <-.
    exact (proj1 (H "fetch failed" (or_introl eq_refl))).
  - destruct (@completion_failure_falls_back AsciiOps.ops Namespace
                (memory (api_answering {| status := 503; json := Returned [] |}))
                [("a", Some "b")] "a" JsNull unconfigured T)
      as (found & E & H).
    vm_compute in E. injection E as <-.
    refine (proj1 (H "OpenAI API error: 503" (or_intror _))).
    exists {| status := 503; json := Returned [] |}.
    split; [reflexivity|]. split; [right; reflexivity | reflexivity].
Defined.

(** C8, as worded, fails at the empty key: [store_memory] takes an empty
    key for a missing one and stores nothing. *)
Lemma empty_key_is_not_stored :
  ~ (filter (has_key "")
       (serve (memory api_down) (stores "" ["x"] JsNull) unconfigured [])
     = [("", Some "x")]).
Proof. vm_compute. discriminate. Qed.

(** C8, amended.  For a non-empty key [k], a sequence of [store_memory]
    calls on [k] with non-empty values, the last of them [v], over an
    in-memory namespace with unique keys: the namespace afterwards has
    unique keys, its entries of key [k] are the one entry of value [v],
    [get] answers [v], and a search for any query reports entries of
    which at most one has the key [k]. *)
Theorem last_write_wins {ops : StringOps} api (ns : Namespace) (k : string)
    (earlier : list string) (v : string) (rid : JsVal) (env : Env) :
  unique_keys ns ->
  k <> "" -> Forall (fun x => x <> "") earlier -> v <> "" ->
  let after := serve (memory api) (stores k (earlier ++ [v]) rid) env ns in
  unique_keys after
  /\ filter (has_key k) after = [(k, Some v)]
  /\ ns_get after k = Some v
  /\ forall q qid,
       exists hits,
         outcome (run (memory api) (handleMCP (search_memory (JsString q) qid) env) after)
         = Returned
             (Result (ToolOutput [{| type := "text"; text := search_text q hits |}]) qid)
         /\ hits = filter (matches q) after
         /\ (List.length (filter (has_key k) hits) <= 1)%nat.
Proof.
  intros U Hk He Hv after.
  assert (Ea : after = ns_put k v (fold_left (fun acc x => ns_put k x acc) earlier ns)).
  { subst after. rewrite serve_stores; [|assumption|].
    - now rewrite fold_left_app.
    - apply Forall_app. split; [assumption | now constructor]. }
  assert (Ua : unique_keys after).
  { rewrite Ea. now apply unique_keys_put, unique_keys_puts. }
  assert (Ek : filter (has_key k) after = [(k, Some v)]).
  { unfold has_key. rewrite entries_of_key by assumption. rewrite Ea.
    destruct (in_dec string_dec k _) as [_|n].
    - now rewrite ns_get_put_same.
    - elim n. apply ns_put_listed. }
  split; [exact Ua|]. split; [exact Ek|]. split.
  - rewrite Ea. apply ns_get_put_same.
  - intros q qid. exists (filter (matches q) after).
    split; [|split; [reflexivity|]].
    + now rewrite search_memory_on_memory.
    + rewrite filter_swap, Ek. simpl. destruct (matches q (k, Some v)); simpl; lia.
Qed.

(** C8, amended, on three writes of the key [a] over a namespace that
    holds [a] already. *)
Lemma last_write_wins_witness :
  let after :=
    serve (memory api_down) (stores "a" (["one"; "two"] ++ ["three"]) JsNull)
      unconfigured [("b", Some "a"); ("a", Some "zero")] in
  unique_keys after
  /\ filter (has_key "a") after = [("a", Some "three")]
  /\ ns_get after "a" = Some "three"
  /\ forall q qid,
       exists hits,
         outcome
           (run (memory api_down)
              (handleMCP (search_memory (JsString q) qid) unconfigured) after)
         = Returned
             (Result (ToolOutput [{| type := "text"; text := search_text q hits |}]) qid)
         /\ hits = filter (matches q) after
         /\ (List.length (filter (has_key "a") hits) <= 1)%nat.
Proof.
  apply (@last_write_wins AsciiOps.ops api_down [("b", Some "a"); ("a", Some "zero")]
           "a" ["one"; "two"] "three" JsNull unconfigured).
  - unique_keys_by_cases.
  - discriminate.
  - repeat constructor; discriminate.
  - discriminate.
Defined.

(** C9.  Under every behaviour of the collaborators, [search_memory]
    calls only [list] and [get] and [ask_memory] makes no [put],
    whatever their arguments; over an in-memory namespace both leave the
    namespace as it was.  A [store_memory] with a non-empty key [k] and
    value [v] makes the single call [put(k, v)], and over an in-memory
    namespace [get] answers for every other key what it answered
    before. *)
Theorem reads_write_nothing_store_writes_one_key {ops : StringOps}
    (W : Type) (w : Collab W) (s : W) api (ns : Namespace)
    (a : option Args) (rid : JsVal) (env : Env) (k v other : string) :
  k <> "" -> v <> "" -> other <> k ->
  Forall is_read
    (calls (run w (handleMCP (tool_call (JsString "search_memory") a rid) env) s))
  /\ Forall (fun c => ~ is_write c)
       (calls (run w (handleMCP (tool_call (JsString "ask_memory") a rid) env) s))
  /\ final (run (memory api)
              (handleMCP (tool_call (JsString "search_memory") a rid) env) ns) = ns
  /\ final (run (memory api)
              (handleMCP (tool_call (JsString "ask_memory") a rid) env) ns) = ns
  /\ calls (run w (handleMCP (store_memory (JsString k) (JsString v) rid) env) s)
     = [KvPut (JsString k) (JsString v)]
  /\ ns_get
       (final (run (memory api)
                 (handleMCP (store_memory (JsString k) (JsString v) rid) env) ns))
       other
     = ns_get ns other.
Proof.
  intros Hk Hv Ho. repeat split.
  - apply calls_only_run, search_tool_reads_only.
  - apply calls_only_run, ask_tool_writes_nothing.
  - apply memory_unchanged.
    apply calls_only_weaken with (P := is_read); [|apply search_tool_reads_only].
    now intros [].
  - apply memory_unchanged, ask_tool_writes_nothing.
  - now rewrite store_run by now apply truthy_string.
  - rewrite store_on_memory by assumption. now apply ns_get_put_other.
Qed.

(** C9 on a namespace of two entries, with a store that overwrites [a]
    and a question that reaches the completion API. *)
Lemma reads_write_nothing_store_writes_one_key_witness :
  let ns := [("a", Some "old"); ("b", Some "kept")] in
  let asked := Some {| question := JsString "b?"; key := JsUndefined;
                       value := JsUndefined; query := JsString "b" |} in
  Forall is_read
    (calls (run (memory api_down)
              (handleMCP (tool_call (JsString "search_memory") asked JsNull)
                 unconfigured) ns))
  /\ Forall (fun c => ~ is_write c)
       (calls (run (memory api_down)
                 (handleMCP (tool_call (JsString "ask_memory") asked JsNull)
                    unconfigured) ns))
  /\ final (run (memory api_down)
              (handleMCP (tool_call (JsString "search_memory") asked JsNull)
                 unconfigured) ns) = ns
  /\ final (run (memory api_down)
              (handleMCP (tool_call (JsString "ask_memory") asked JsNull)
                 unconfigured) ns) = ns
  /\ calls (run (memory api_down)
              (handleMCP (store_memory (JsString "a") (JsString "new") JsNull)
                 unconfigured) ns)
     = [KvPut (JsString "a") (JsString "new")]
  /\ ns_get
       (final (run (memory api_down)
                 (handleMCP (store_memory (JsString "a") (JsString "new") JsNull)
                    unconfigured) ns))
       "b"
     = ns_get ns "b".
Proof.
  intros ns asked.
  apply (@reads_write_nothing_store_writes_one_key AsciiOps.ops Namespace
           (memory api_down) ns api_down ns asked JsNull unconfigured
           "a" "new" "b"); discriminate.
Defined.

(** C10.  Over an in-memory namespace with unique keys, a search for the
    empty string reports exactly the entries whose value is a non-empty
    string; and a search for any query reports no entry whose value is
    the empty string or absent, whether or not the query occurs in its
    key. *)
Theorem empty_query_and_empty_values {ops : StringOps} api (ns : Namespace)
    (rid : JsVal) (env : Env) :
  unique_keys ns ->
  outcome (run (memory api) (handleMCP (search_memory (JsString "") rid) env) ns)
  = Returned
      (Result
         (ToolOutput
            [{| type := "text"; text := search_text "" (filter has_value ns) |}])
         rid)
  /\ forall q,
       exists hits,
         outcome (run (memory api) (handleMCP (search_memory (JsString q) rid) env) ns)
         = Returned
             (Result (ToolOutput [{| type := "text"; text := search_text q hits |}]) rid)
         /\ (forall entry, In entry hits -> In entry ns)
         /\ forall k v,
              In (k, v) ns -> v = None \/ v = Some "" -> ~ In (k, v) hits.
Proof.
  intros U. split.
  - rewrite search_memory_on_memory by assumption. cbn [outcome].
    now rewrite (filter_ext _ _ matches_empty_query).
  - intros q. exists (filter (matches q) ns). split; [|split].
    + now rewrite search_memory_on_memory.
    + intros entry H. now apply filter_In in H.
    + intros k v _ Hv H. apply filter_In in H as [_ H].
      unfold matches in H; cbn [snd] in H.
      destruct Hv as [-> | ->]; discriminate.
Qed.

(** C10 on a namespace where the key [note] holds an empty value and the
    key [gone] is listed with its value absent. *)
Lemma empty_query_and_empty_values_witness :
  let ns := [("note", Some ""); ("list", Some "milk"); ("gone", None)] in
  outcome
    (run (memory api_down)
       (handleMCP (search_memory (JsString "") JsNull) unconfigured) ns)
  = Returned
      (Result
         (ToolOutput
            [{| type := "text"; text := search_text "" (filter has_value ns) |}])
         JsNull)
  /\ forall q,
       exists hits,
         outcome
           (run (memory api_down)
              (handleMCP (search_memory (JsString q) JsNull) unconfigured) ns)
         = Returned
             (Result (ToolOutput [{| type := "text"; text := search_text q hits |}])
                JsNull)
         /\ (forall entry, In entry hits -> In entry ns)
         /\ forall k v,
              In (k, v) ns -> v = None \/ v = Some "" -> ~ In (k, v) hits.
Proof.
  intros ns.
  apply (@empty_query_and_empty_values AsciiOps.ops api_down ns JsNull unconfigured).
  unique_keys_by_cases.
Defined.

(* ================================================================== *)
(** ** The dispatcher as a whole *)

Lemma run_bind_ret (W A B : Type) (w : Collab W) (p : Prog A) (f : A -> B) (s : W) :
  run w (bind p (fun a => Ret (f a))) s
  = {| outcome :=
         match outcome (run w p s) with
         | Returned a => Returned (f a)
         | Thrown e => Thrown e
         end;
       final := final (run w p s);
       calls := calls (run w p s) |}.
Proof.
  rewrite run_bind. destruct (outcome (run w p s)); simpl; [|reflexivity].
  now rewrite app_nil_r.
Qed.

Lemma strict_eq_string_true (v : JsVal) (lit : string) :
  strict_eq_string v lit = true <-> v = JsString lit.
Proof.
  split.
  - destruct v; simpl; try discriminate.
    intros H. apply String.eqb_eq in H. now subst.
  - intros ->. simpl. apply String.eqb_refl.
Qed.

Lemma outcome_bind (W A B : Type) (w : Collab W) (p : Prog A) (f : A -> Prog B)
    (s : W) :
  outcome (run w (bind p f) s)
  = match outcome (run w p s) with
    | Returned a => outcome (run w (f a) (final (run w p s)))
    | Thrown e => Thrown e
    end.
Proof. rewrite run_bind. now destruct (outcome (run w p s)). Qed.

(** The outcome of the [store_memory] branch once [put] has been
    awaited. *)
Lemma outcome_after_put (W : Type) (w : Collab W) (s : W) (k v rid : JsVal) :
  outcome
    (run w
       (await (KvPut k v) ;;
        stored <- lift (to_string k) ;;
        Ret (text_result ("✅ Stored memory: " ++ stored) rid))
       s)
  = match fst (w (KvPut k v) s) with
    | Returned _ =>
        match to_string k with
        | Returned stored => Returned (text_result ("✅ Stored memory: " ++ stored) rid)
        | Thrown e => Thrown e
        end
    | Thrown e => Thrown e
    end.
Proof.
  simpl. destruct (w (KvPut k v) s) as [[[]|e] s']; simpl; [|reflexivity].
  now destruct (to_string k).
Qed.

(** X1.  Whatever the request and the collaborators, an envelope that
    the dispatcher returns carries the [id] of the request, in all of
    its branches: results and errors alike. *)
Theorem envelopes_echo_the_request_id {ops : StringOps} (W : Type) (w : Collab W)
    (s : W) (body : Body) (env : Env) :
  match outcome (run w (handleMCP body env) s) with
  | Returned envelope => envelope_id envelope = id body
  | Thrown _ => True
  end.
Proof.
  assert (U : forall v,
             match outcome
                     (run w
                        (unknown <- lift (to_string v) ;;
                         Ret (Error (-32601) ("Unknown tool: " ++ unknown) (id body)))
                        s)
             with
             | Returned envelope => envelope_id envelope = id body
             | Thrown _ => True
             end).
  { intros v. now destruct (to_string v). }
  method_cases body; try reflexivity.
  - destruct (params body) as [| |p]; cbn [destructured lift bind];
      [apply U | exact I |].
    name_cases p; [| |  | apply U].
    + destruct (arguments p) as [| |args]; cbn [read_from lift bind];
        try exact I; rewrite run_bind_ret; cbn [outcome];
        now destruct (outcome (run w (askMemoryWithAI _ env) s)).
    + destruct (arguments p) as [| |args]; cbn [destructured lift bind];
        try exact I;
        (destruct (negb _ || negb _); [reflexivity|]);
        rewrite outcome_after_put;
        destruct (fst (w (KvPut _ _) s)); trivial;
        now destruct (to_string _).
    + destruct (arguments p) as [| |args]; cbn [read_from lift bind];
        try exact I; rewrite run_bind_ret; cbn [outcome];
        now destruct (outcome (run w (searchMemories _ env) s)).
  - now destruct (to_string (method body)).
Qed.

Lemma error_envelope_cases {ops : StringOps} (W : Type) (w : Collab W)
    (s : W) (body : Body) (env : Env) :
  ((exists code message rid,
      outcome (run w (handleMCP body env) s) = Returned (Error code message rid))
   <->
   ((method body <> JsString "initialize"
     /\ method body <> JsString "tools/list"
     /\ method body <> JsString "tools/call"
     /\ exists t, to_string (method body) = Returned t)
    \/ (method body = JsString "tools/call"
        /\ exists tool t,
             requested_tool (params body) = Some tool
             /\ tool <> JsString "ask_memory"
             /\ tool <> JsString "store_memory"
             /\ tool <> JsString "search_memory"
             /\ to_string tool = Returned t)))
  /\ forall code message rid,
       outcome (run w (handleMCP body env) s) = Returned (Error code message rid) ->
       code = -32601.
Proof.
  assert (F : forall lit v, strict_eq_string v lit = false -> v <> JsString lit).
  { intros lit v E H. apply strict_eq_string_true in H. congruence. }
  assert (T : forall lit v, strict_eq_string v lit = true -> v = JsString lit).
  { intros lit v. apply strict_eq_string_true. }
  (* an outcome that is no error envelope, in a branch where the right
     side fails by [R] *)
  assert (NoError : forall o : Outcome Envelope,
             (forall code message rid, o <> Returned (Error code message rid)) ->
             forall P : Prop, ~ P ->
             ((exists code message rid, o = Returned (Error code message rid)) <-> P)
             /\ forall code message rid,
                  o = Returned (Error code message rid) -> code = -32601).
  { intros o No P NP. split; [split|].
    - intros (code & message & rid & H). now elim (No code message rid).
    - intros H. now elim NP.
    - intros code message rid H. now elim (No code message rid). }
  assert (Text : forall (o : Outcome string) rid code message rid',
             match o with
             | Returned a => Returned (text_result a rid)
             | Thrown e => Thrown e
             end <> Returned (Error code message rid')).
  { intros [a|e] ? ? ? ?; discriminate. }
  method_cases body.
  - apply T in Einit. cbn [run outcome]. apply NoError; [discriminate|].
    intros [(H & _)|(H & _)]; congruence.
  - apply T in Elist. cbn [run outcome]. apply NoError; [discriminate|].
    intros [(_ & H & _)|(H & _)]; congruence.
  - apply T in Ecall.
    destruct (params body) as [| |p] eqn:Ep; cbn [destructured lift bind].
    + cbn. split; [|now intros ? ? ? [= <- _ _]].
      split; [intros _; right|intros _; eauto].
      split; [exact Ecall|]. exists JsUndefined, "undefined".
      repeat split; discriminate.
    + cbn [run outcome]. apply NoError; [discriminate|].
      intros [(_ & _ & H & _)|(_ & tool & t & H & _)]; [congruence|].
      simpl in H. discriminate H.
    + assert (R : forall lit,
                 strict_eq_string (name p) lit = true ->
                 lit = "ask_memory" \/ lit = "store_memory" \/ lit = "search_memory" ->
                 ~ ((method body <> JsString "initialize"
                     /\ method body <> JsString "tools/list"
                     /\ method body <> JsString "tools/call"
                     /\ exists t, to_string (method body) = Returned t)
                    \/ (method body = JsString "tools/call"
                        /\ exists tool t,
                             requested_tool (Given p) = Some tool
                             /\ tool <> JsString "ask_memory"
                             /\ tool <> JsString "store_memory"
                             /\ tool <> JsString "search_memory"
                             /\ to_string tool = Returned t))).
      { intros lit E L [(_ & _ & H & _)|(_ & tool & t & H & N1 & N2 & N3 & _)];
          [congruence|].
        apply T in E. simpl in H. injection H as <-.
        destruct L as [->|[->| ->]]; congruence. }
      name_cases p.
      * apply NoError; [|apply (R _ Eask); auto].
        destruct (arguments p) as [| |args]; cbn [read_from lift bind];
          try discriminate; intros ? ? ?; rewrite run_bind_ret; apply Text.
      * apply NoError; [|apply (R _ Estore); auto].
        destruct (arguments p) as [| |args]; cbn [destructured lift bind];
          try discriminate;
          (destruct (negb _ || negb _);
           [intros ? ? ?; cbn [run outcome]; unfold text_result; discriminate|]);
          intros ? ? ?; rewrite outcome_after_put;
          destruct (fst (w (KvPut _ _) s)); try discriminate;
          destruct (to_string (key _)); unfold text_result; discriminate.
      * apply NoError; [|apply (R _ Esearch); auto].
        destruct (arguments p) as [| |args]; cbn [read_from lift bind];
          try discriminate; intros ? ? ?; rewrite run_bind_ret; apply Text.
      * apply F in Eask, Estore, Esearch.
        destruct (to_string (name p)) as [t|message] eqn:Et; cbn.
        -- split; [|now intros ? ? ? [= <- _ _]].
           split; [intros _; right|intros _; eauto].
           split; [exact Ecall|]. exists (name p), t. repeat split; assumption.
        -- apply NoError; [discriminate|].
           intros [(_ & _ & H & _)|(_ & tool & t & H & _ & _ & _ & H')];
             [congruence|].
           simpl in H. injection H as <-. congruence.
  - apply F in Einit, Elist, Ecall.
    destruct (to_string (method body)) as [t|message] eqn:Et; cbn.
    + split; [|now intros ? ? ? [= <- _ _]].
      split; [intros _; left; eauto 6|intros _; eauto].
    + apply NoError; [discriminate|].
      intros [(_ & _ & _ & t & H)|(H & _)]; congruence.
Qed.

(** X2.  The dispatcher returns an error envelope exactly when the
    method is none of [initialize], [tools/list], [tools/call] and is
    not an object without a text, or the method is [tools/call],
    [params] is not [null], and the tool name is none of the three tools
    and is not an object without a text; the code of the error is then
    -32601.  In every other case it returns a result envelope or
    throws. *)
Theorem error_envelope_iff_unknown_name {ops : StringOps} (W : Type) (w : Collab W)
    (s : W) (body : Body) (env : Env) :
  ((exists code message rid,
      outcome (run w (handleMCP body env) s) = Returned (Error code message rid))
   <->
   ((method body <> JsString "initialize"
     /\ method body <> JsString "tools/list"
     /\ method body <> JsString "tools/call"
     /\ method body <> JsUnprintable)
    \/ (method body = JsString "tools/call"
        /\ exists tool,
             requested_tool (params body) = Some tool
             /\ tool <> JsString "ask_memory"
             /\ tool <> JsString "store_memory"
             /\ tool <> JsString "search_memory"
             /\ tool <> JsUnprintable)))
  /\ forall code message rid,
       outcome (run w (handleMCP body env) s) = Returned (Error code message rid) ->
       code = -32601.
Proof.
  destruct (@error_envelope_cases _ W w s body env) as [Cases Code].
  split; [|exact Code]. rewrite Cases. split.
  - intros [(N1 & N2 & N3 & T)|(C & tool & t & R & N1 & N2 & N3 & T)].
    + left. repeat split; try assumption. now apply to_string_returns.
    + right. split; [exact C|]. exists tool. repeat split; try assumption.
      apply to_string_returns. now exists t.
  - intros [(N1 & N2 & N3 & T)|(C & tool & R & N1 & N2 & N3 & T)].
    + left. repeat split; try assumption. now apply to_string_returns.
    + right. split; [exact C|]. apply to_string_returns in T as [t T].
      exists tool, t. repeat split; assumption.
Qed.

(* ================================================================== *)
(** ** The HTTP handler *)

Lemma is_mcp_post_true (request : Request) :
  is_mcp_post request = true ->
  pathname request = "/mcp" /\ request_method request = "POST".
Proof.
  unfold is_mcp_post. intros H. apply andb_true_iff in H as [P M].
  apply String.eqb_eq in P, M. now split.
Qed.

Lemma fetch_mcp_post {ops : StringOps} (now : string) (request : Request)
    (env : WorkerEnv) :
  is_mcp_post request = true ->
  fetch now request env =
  try_catch
    (body <- lift (request_json request) ;;
     response <- handleMCP body (dispatcher_env env) ;;
     Ret {| response_status := 200;
            response_headers := [cors_origin; ("Content-Type", "application/json")];
            payload := Rpc response |})
    (fun message =>
       Ret {| response_status := 500;
              response_headers := [];
              payload := Rpc (Error (-32603) message JsNull) |}).
Proof.
  intros H. apply is_mcp_post_true in H as [P M].
  unfold fetch. now rewrite P, M.
Qed.

Lemma run_fetch_mcp_post {ops : StringOps} (W : Type) (w : Collab W)
    (s : W) (now : string) (request : Request) (env : WorkerEnv) :
  is_mcp_post request = true ->
  run w (fetch now request env) s
  = match request_json request with
    | Thrown message =>
        {| outcome :=
             Returned {| response_status := 500; response_headers := [];
                         payload := Rpc (Error (-32603) message JsNull) |};
           final := s;
           calls := [] |}
    | Returned body =>
        {| outcome :=
             match outcome (run w (handleMCP body (dispatcher_env env)) s) with
             | Returned envelope =>
                 Returned
                   {| response_status := 200;
                      response_headers :=
                        [cors_origin; ("Content-Type", "application/json")];
                      payload := Rpc envelope |}
             | Thrown message =>
                 Returned {| response_status := 500; response_headers := [];
                             payload := Rpc (Error (-32603) message JsNull) |}
             end;
           final := final (run w (handleMCP body (dispatcher_env env)) s);
           calls := calls (run w (handleMCP body (dispatcher_env env)) s) |}
    end.
Proof.
  intros H. rewrite (@fetch_mcp_post _ now request env H), run_try_catch.
  destruct (request_json request) as [body|message]; cbn [lift bind].
  - rewrite run_bind_ret. cbn [outcome final calls].
    destruct (outcome (run w (handleMCP body (dispatcher_env env)) s)); simpl;
      [reflexivity | now rewrite app_nil_r].
  - reflexivity.
Qed.


(** X3.  On [POST /mcp] the handler wraps the dispatcher: a body that
    does not parse gives status 500 with no call made; otherwise the
    calls and the last state are those of the dispatcher, an envelope it
    returns (a result or a JSON-RPC error alike) goes out with status 200
    and the CORS origin header, and an exception it throws goes out with
    status 500 as the error -32603 with the exception's message, the
    [id] null and no header. *)
Theorem mcp_post_wraps_the_dispatcher {ops : StringOps} (W : Type) (w : Collab W)
    (s : W) (now : string) (request : Request) (env : WorkerEnv) :
  is_mcp_post request = true ->
  run w (fetch now request env) s
  = match request_json request with
    | Thrown message =>
        {| outcome :=
             Returned {| response_status := 500; response_headers := [];
                         payload := Rpc (Error (-32603) message JsNull) |};
           final := s;
           calls := [] |}
    | Returned body =>
        {| outcome :=
             match outcome (run w (handleMCP body (dispatcher_env env)) s) with
             | Returned envelope =>
                 Returned
                   {| response_status := 200;
                      response_headers :=
                        [cors_origin; ("Content-Type", "application/json")];
                      payload := Rpc envelope |}
             | Thrown message =>
                 Returned {| response_status := 500; response_headers := [];
                             payload := Rpc (Error (-32603) message JsNull) |}
             end;
           final := final (run w (handleMCP body (dispatcher_env env)) s);
           calls := calls (run w (handleMCP body (dispatcher_env env)) s) |}
    end.
Proof.
  intros H. rewrite (@fetch_mcp_post _ now request env H), run_try_catch.
  destruct (request_json request) as [body|message]; cbn [lift bind].
  - rewrite run_bind_ret. cbn [outcome final calls].
    destruct (outcome (run w (handleMCP body (dispatcher_env env)) s)); simpl;
      [reflexivity | now rewrite app_nil_r].
  - reflexivity.
Qed.

(** X3 on a [store_memory] request and on a body that is not JSON. *)
Lemma mcp_post_wraps_the_dispatcher_witness :
  run (memory api_down)
    (fetch midnight
       {| request_method := "POST"; pathname := "/mcp";
          request_json :=
            Returned (store_memory (JsString "a") (JsString "b") (JsNumber 1)) |}
       plain_env)
    []
  = {| outcome :=
         Returned
           {| response_status := 200;
              response_headers := [cors_origin; ("Content-Type", "application/json")];
              payload := Rpc (text_result "✅ Stored memory: a" (JsNumber 1)) |};
       final := [("a", Some "b")];
       calls := [KvPut (JsString "a") (JsString "b")] |}
  /\ run (memory api_down)
       (fetch midnight
          {| request_method := "POST"; pathname := "/mcp";
             request_json := Thrown "Unexpected end of JSON input" |}
          plain_env)
       []
     = {| outcome :=
            Returned
              {| response_status := 500; response_headers := [];
                 payload :=
                   Rpc (Error (-32603) "Unexpected end of JSON input" JsNull) |};
          final := [];
          calls := [] |}.
Proof.
  split.
  - exact (@mcp_post_wraps_the_dispatcher AsciiOps.ops Namespace (memory api_down) []
             midnight
             {| request_method := "POST"; pathname := "/mcp";
                request_json :=
                  Returned (store_memory (JsString "a") (JsString "b") (JsNumber 1)) |}
             plain_env eq_refl).
  - exact (@mcp_post_wraps_the_dispatcher AsciiOps.ops Namespace (memory api_down) []
             midnight
             {| request_method := "POST"; pathname := "/mcp";
                request_json := Thrown "Unexpected end of JSON input" |}
             plain_env eq_refl).
Defined.

(** X4.  A request that is not [POST /mcp] is answered without a call
    on the key-value store or on the completion API, and without its
    body being read: the response is the same whatever the body. *)
Theorem only_mcp_post_reaches_the_collaborators {ops : StringOps} (W : Type)
    (w : Collab W) (s : W) (now : string) (request : Request) (env : WorkerEnv) :
  is_mcp_post request = false ->
  exists response,
    run w (fetch now request env) s
    = {| outcome := Returned response; final := s; calls := [] |}
    /\ forall other,
         fetch now
           {| request_method := request_method request;
              pathname := pathname request;
              request_json := other |}
           env
         = Ret response.
Proof.
  unfold is_mcp_post, fetch. intros H. cbn [request_method pathname].
  destruct (String.eqb (request_method request) "OPTIONS");
    [eexists; split; reflexivity|].
  destruct (String.eqb (pathname request) "/health");
    [eexists; split; reflexivity|].
  destruct (String.eqb (pathname request) "/");
    [eexists; split; reflexivity|].
  rewrite H. eexists; split; reflexivity.
Qed.

(** X4 on [GET /mcp], which is answered with 404. *)
Lemma only_mcp_post_reaches_the_collaborators_witness :
  exists response,
    run (failing "called")
      (fetch midnight
         {| request_method := "GET"; pathname := "/mcp";
            request_json := Thrown "no body" |}
         plain_env)
      tt
    = {| outcome := Returned response; final := tt; calls := [] |}
    /\ forall other,
         fetch midnight
           {| request_method := "GET"; pathname := "/mcp"; request_json := other |}
           plain_env
         = Ret response.
Proof.
  exact (@only_mcp_post_reaches_the_collaborators AsciiOps.ops unit (failing "called")
           tt midnight
           {| request_method := "GET"; pathname := "/mcp";
              request_json := Thrown "no body" |}
           plain_env eq_refl).
Defined.

(** X5.  Every request is answered: the handler never throws, whatever
    the collaborators do, and the status is 200, 404 or 500.  It is 404
    exactly when the method is not [OPTIONS], the path is neither
    [/health] nor [/], and the request is not [POST /mcp]; it is 500 only
    on [POST /mcp].  So [OPTIONS] is answered on every path, and
    [/health] and [/] under every other method. *)
Theorem every_request_is_answered {ops : StringOps} (W : Type) (w : Collab W)
    (s : W) (now : string) (request : Request) (env : WorkerEnv) :
  exists response,
    outcome (run w (fetch now request env) s) = Returned response
    /\ (response_status response = 200
        \/ response_status response = 404
        \/ response_status response = 500)
    /\ (response_status response = 404 <->
        request_method request <> "OPTIONS"
        /\ pathname request <> "/health"
        /\ pathname request <> "/"
        /\ is_mcp_post request = false)
    /\ (response_status response = 500 -> is_mcp_post request = true).
Proof.
  destruct (is_mcp_post request) eqn:M.
  - rewrite (@run_fetch_mcp_post _ W w s now request env M).
    destruct (is_mcp_post_true _ M) as [P Q].
    destruct (request_json request) as [body|message]; cbn [outcome].
    + destruct (outcome (run w (handleMCP body (dispatcher_env env)) s));
        eexists; (split; [reflexivity|]); cbn [response_status];
        (split; [auto|]); (split; [|auto]);
        (split; [discriminate | now intros (_ & _ & _ & [=])]).
    + eexists; split; [reflexivity|]; cbn [response_status].
      split; [auto|]. split; [|auto].
      split; [discriminate | now intros (_ & _ & _ & [=])].
  - unfold fetch. unfold is_mcp_post in M.
    destruct (String.eqb_spec (request_method request) "OPTIONS") as [E1|E1].
    { eexists; split; [reflexivity|]; cbn [response_status].
      split; [auto|]. split; [|discriminate].
      split; [discriminate | now intros (H & _)]. }
    destruct (String.eqb_spec (pathname request) "/health") as [E2|E2].
    { eexists; split; [reflexivity|]; cbn [response_status].
      split; [auto|]. split; [|discriminate].
      split; [discriminate | now intros (_ & H & _)]. }
    destruct (String.eqb_spec (pathname request) "/") as [E3|E3].
    { eexists; split; [reflexivity|]; cbn [response_status].
      split; [auto|]. split; [|discriminate].
      split; [discriminate | now intros (_ & _ & H & _)]. }
    rewrite M. eexists; split; [reflexivity|]; cbn [response_status].
    split; [auto|]. split; [|discriminate]. split; auto.
Qed.

(** X6.  The CORS origin header is on a response exactly when the
    request is an [OPTIONS] preflight, or it is a [POST /mcp] answered
    with status 200.  The 500 answer of [POST /mcp], the health report,
    the service descriptor and the 404 answer carry no such header. *)
Theorem cors_origin_only_on_preflight_and_mcp_success {ops : StringOps} (W : Type)
    (w : Collab W) (s : W) (now : string) (request : Request) (env : WorkerEnv) :
  exists response,
    outcome (run w (fetch now request env) s) = Returned response
    /\ (In cors_origin (response_headers response) <->
        request_method request = "OPTIONS"
        \/ (is_mcp_post request = true /\ response_status response = 200)).
Proof.
  destruct (is_mcp_post request) eqn:M.
  - rewrite (@run_fetch_mcp_post _ W w s now request env M).
    destruct (is_mcp_post_true _ M) as [P Q].
    destruct (request_json request) as [body|message]; cbn [outcome].
    + destruct (outcome (run w (handleMCP body (dispatcher_env env)) s));
        eexists; (split; [reflexivity|]);
        cbn [response_status response_headers].
      * split; [auto | intros _; now left].
      * split; [intros [] | intros [E|[_ [=]]]]. rewrite Q in E. discriminate E.
    + eexists; split; [reflexivity|]. cbn [response_status response_headers].
      split; [intros [] | intros [E|[_ [=]]]]. rewrite Q in E. discriminate E.
  - unfold fetch.
    destruct (String.eqb_spec (request_method request) "OPTIONS") as [E1|E1].
    { eexists; split; [reflexivity|]. cbn [response_headers].
      split; [auto | intros _; now left]. }
    unfold is_mcp_post in M.
    destruct (String.eqb (pathname request) "/health");
      [|destruct (String.eqb (pathname request) "/"); [|rewrite M]];
      eexists; (split; [reflexivity|]); cbn [response_headers];
      (split; [intros [] | intros [E|[[=] _]]; contradiction]).
Qed.

(* ================================================================== *)
(** ** More on [store_memory] and [searchMemories] *)

Lemma receiver_of_truthy_non_string (expr method_name : string) (v : JsVal) :
  truthy v = true -> (forall q, v <> JsString q) ->
  string_receiver expr method_name v
  = Thrown (expr ++ "." ++ method_name ++ " is not a function").
Proof.
  intros T N. destruct v; try discriminate; try reflexivity.
  now elim (N s).
Qed.

Lemma js_or_truthy (v d : JsVal) : truthy v = true -> js_or v d = v.
Proof. unfold js_or. now intros ->. Qed.

(** X7.  A [store_memory] whose key and value are truthy makes the one
    call [put(key, value)], with the two values as they came: there is no
    validation or conversion.  When [put] returns and the key has a
    text, the answer is 200 with the text naming the key; when the key
    has none, the template literal throws after the [put] has been made;
    when [put] throws, that exception leaves the dispatcher.  In both
    cases the handler answers [POST /mcp] with status 500 and the error
    -32603 carrying the message of the exception and the [id] null, not
    the [id] of the request. *)
Theorem store_passes_values_and_put_failure_is_500 {ops : StringOps} (W : Type)
    (w : Collab W) (s : W) (now : string) (k v rid : JsVal) (env : WorkerEnv) :
  truthy k = true -> truthy v = true ->
  let served :=
    run w
      (fetch now
         {| request_method := "POST"; pathname := "/mcp";
            request_json := Returned (store_memory k v rid) |}
         env)
      s in
  let failed message :=
    {| response_status := 500;
       response_headers := [];
       payload := Rpc (Error (-32603) message JsNull) |} in
  calls served = [KvPut k v]
  /\ final served = snd (w (KvPut k v) s)
  /\ outcome served
     = Returned
         match fst (w (KvPut k v) s) with
         | Returned _ =>
             match to_string k with
             | Returned stored =>
                 {| response_status := 200;
                    response_headers :=
                      [cors_origin; ("Content-Type", "application/json")];
                    payload :=
                      Rpc (text_result ("✅ Stored memory: " ++ stored) rid) |}
             | Thrown message => failed message
             end
         | Thrown message => failed message
         end.
Proof.
  intros Hk Hv served failed. subst served failed.
  rewrite (@run_fetch_mcp_post _ W w s now
             {| request_method := "POST"; pathname := "/mcp";
                request_json := Returned (store_memory k v rid) |}
             env eq_refl).
  cbn [request_json].
  rewrite store_run by assumption. cbn [outcome final calls].
  repeat split. destruct (fst (w (KvPut k v) s)); [|reflexivity].
  now destruct (to_string k).
Qed.

(** X7 on a numeric key over a store that is down, on the key 10^21
    over an in-memory namespace, and on a key that has no text. *)
Lemma store_passes_values_and_put_failure_is_500_witness :
  outcome
    (run (failing "KV down")
       (fetch midnight
          {| request_method := "POST"; pathname := "/mcp";
             request_json :=
               Returned (store_memory (JsNumber 5) (JsString "five") (JsNumber 9)) |}
          plain_env)
       tt)
  = Returned
      {| response_status := 500;
         response_headers := [];
         payload := Rpc (Error (-32603) "KV down" JsNull) |}
  /\ outcome
       (run (memory api_down)
          (fetch midnight
             {| request_method := "POST"; pathname := "/mcp";
                request_json :=
                  Returned
                    (store_memory (JsNumber 1000000000000000000000) (JsString "big")
                       (JsNumber 9)) |}
             plain_env)
          [])
     = Returned
         {| response_status := 200;
            response_headers := [cors_origin; ("Content-Type", "application/json")];
            payload := Rpc (text_result "✅ Stored memory: 1e+21" (JsNumber 9)) |}
  /\ run unreadable_b
       (fetch midnight
          {| request_method := "POST"; pathname := "/mcp";
             request_json :=
               Returned (store_memory JsUnprintable (JsString "x") (JsNumber 9)) |}
          plain_env)
       tt
     = {| outcome :=
            Returned
              {| response_status := 500;
                 response_headers := [];
                 payload :=
                   Rpc (Error (-32603) "Cannot convert object to primitive value"
                          JsNull) |};
          final := tt;
          calls := [KvPut JsUnprintable (JsString "x")] |}.
Proof.
  split; [|split].
  - exact (proj2 (proj2
             (@store_passes_values_and_put_failure_is_500 AsciiOps.ops unit
                (failing "KV down") tt midnight (JsNumber 5) (JsString "five")
                (JsNumber 9) plain_env eq_refl eq_refl))).
  - exact (proj2 (proj2
             (@store_passes_values_and_put_failure_is_500 AsciiOps.ops Namespace
                (memory api_down) [] midnight (JsNumber 1000000000000000000000)
                (JsString "big") (JsNumber 9) plain_env eq_refl eq_refl))).
  - destruct (@store_passes_values_and_put_failure_is_500 AsciiOps.ops unit
                unreadable_b tt midnight JsUnprintable (JsString "x") (JsNumber 9)
                plain_env eq_refl eq_refl) as (C & F & O).
    destruct (run unreadable_b _ tt) as [o f c]. cbn [calls final outcome] in C, F, O.
    now rewrite C, F, O.
Defined.

(** X8.  An [ask_memory] whose question is truthy and not a string (a
    number, [true], an array or object) throws the [TypeError] of
    [question.trim] out of the dispatcher before any call is made. *)
Theorem non_string_question_throws {ops : StringOps} (W : Type) (w : Collab W)
    (s : W) (a : option Args) (rid : JsVal) (env : Env) :
  truthy (question (args_or_default a)) = true ->
  (forall q, question (args_or_default a) <> JsString q) ->
  run w (handleMCP (tool_call (JsString "ask_memory") a rid) env) s
  = {| outcome := Thrown "question.trim is not a function";
       final := s;
       calls := [] |}.
Proof.
  intros T N. rewrite handleMCP_ask, (@js_or_truthy _ _ T).
  unfold askMemoryWithAI.
  now rewrite (@receiver_of_truthy_non_string "question" "trim" _ T N).
Qed.

(** X8 on the question [42]. *)
Lemma non_string_question_throws_witness :
  run (memory api_down)
    (handleMCP (ask_memory (JsNumber 42) JsNull) unconfigured) [("a", Some "b")]
  = {| outcome := Thrown "question.trim is not a function";
       final := [("a", Some "b")];
       calls := [] |}.
Proof.
  apply (@non_string_question_throws AsciiOps.ops Namespace (memory api_down)
           [("a", Some "b")] _ JsNull unconfigured); [reflexivity | discriminate].
Defined.

Lemma loop_with_non_string_query {ops : StringOps} api (query : JsVal)
    (names acc : list string) (ns : Namespace) :
  truthy query = true -> (forall q, query <> JsString q) ->
  outcome (run (memory api) (searchMemories_loop query names acc) ns)
  = if existsb (fun name => has_value (name, ns_get ns name)) names
    then Thrown "query.toLowerCase is not a function"
    else Returned acc.
Proof.
  intros T N. induction names as [|name names IH]; simpl; [reflexivity|].
  unfold has_value at 1; cbn [snd].
  destruct (ns_get ns name) as [v|]; simpl; [|exact IH].
  destruct (String.eqb v ""); simpl; [exact IH|].
  now rewrite (@receiver_of_truthy_non_string "query" "toLowerCase" _ T N).
Qed.

(** X9.  A [search_memory] whose query is truthy and not a string: over
    an in-memory namespace, when some listed key has a non-empty value
    the text is the search error of [query.toLowerCase]; when none has,
    the query is never lowered, and the text is the no-match sentence
    with the text of the query, or the search error of the template
    literal when the query has no text. *)
Theorem non_string_query_is_a_search_error {ops : StringOps} api (ns : Namespace)
    (asked rid : JsVal) (env : Env) :
  truthy asked = true -> (forall q, asked <> JsString q) ->
  outcome (run (memory api) (handleMCP (search_memory asked rid) env) ns)
  = Returned
      (Result
         (ToolOutput
            [{| type := "text";
                text :=
                  if existsb (fun name => has_value (name, ns_get ns name)) (ns_keys ns)
                  then "Search error: query.toLowerCase is not a function"
                  else
                    match to_string asked with
                    | Returned shown =>
                        "No memories found matching " ++ dquote ++ shown ++ dquote
                    | Thrown message => "Search error: " ++ message
                    end |}])
         rid).
Proof.
  intros T N. unfold search_memory. rewrite handleMCP_search.
  simpl args_or_default. cbn [query]. rewrite (@js_or_truthy _ _ T), run_bind_ret.
  cbn [outcome]. unfold searchMemories. simpl. rewrite run_try_catch, run_bind.
  rewrite (@loop_with_non_string_query _ api _ (ns_keys ns) [] ns T N).
  destruct (existsb _ (ns_keys ns)); [reflexivity|].
  cbn [List.length Nat.eqb]. now destruct (to_string asked).
Qed.

(** X9 on the query [5] over a namespace with a value, and on the
    queries [5], 10^21 and one that has no text over a namespace whose
    only value is empty. *)
Lemma non_string_query_is_a_search_error_witness :
  outcome
    (run (memory api_down)
       (handleMCP (search_memory (JsNumber 5) JsNull) unconfigured)
       [("a", Some ""); ("b", Some "five")])
  = Returned (text_result "Search error: query.toLowerCase is not a function" JsNull)
  /\ outcome
       (run (memory api_down)
          (handleMCP (search_memory (JsNumber 5) JsNull) unconfigured)
          [("a", Some "")])
     = Returned
         (text_result ("No memories found matching " ++ dquote ++ "5" ++ dquote) JsNull)
  /\ outcome
       (run (memory api_down)
          (handleMCP (search_memory (JsNumber 1000000000000000000000) JsNull)
             unconfigured)
          [("a", Some "")])
     = Returned
         (text_result ("No memories found matching " ++ dquote ++ "1e+21" ++ dquote)
            JsNull)
  /\ outcome
       (run (memory api_down)
          (handleMCP (search_memory JsUnprintable JsNull) unconfigured)
          [("a", Some "")])
     = Returned
         (text_result "Search error: Cannot convert object to primitive value" JsNull).
Proof.
  split; [|split; [|split]].
  - apply (@non_string_query_is_a_search_error AsciiOps.ops api_down
             [("a", Some ""); ("b", Some "five")] (JsNumber 5) JsNull unconfigured);
      [reflexivity | discriminate].
  - apply (@non_string_query_is_a_search_error AsciiOps.ops api_down
             [("a", Some "")] (JsNumber 5) JsNull unconfigured);
      [reflexivity | discriminate].
  - apply (@non_string_query_is_a_search_error AsciiOps.ops api_down
             [("a", Some "")] (JsNumber 1000000000000000000000) JsNull unconfigured);
      [reflexivity | discriminate].
  - apply (@non_string_query_is_a_search_error AsciiOps.ops api_down
             [("a", Some "")] JsUnprintable JsNull unconfigured);
      [reflexivity | discriminate].
Defined.

Lemma loop_stops_at_failing_get {ops : StringOps} (W : Type) (w : Collab W)
    (q : string) (name : string) (post : list string) (e : string) (s2 : W)
    (pre acc : list string) (s1 : W) :
  after_gets w pre s1 = Some s2 ->
  fst (w (KvGet name) s2) = Thrown e ->
  run w (searchMemories_loop (JsString q) (pre ++ name :: post) acc) s1
  = {| outcome := Thrown e;
       final := snd (w (KvGet name) s2);
       calls := map KvGet (pre ++ [name])%list |}.
Proof.
  intros A F. revert acc s1 A.
  induction pre as [|n pre IH]; intros acc s1 A; simpl in A |- *.
  - injection A as ->. destruct (w (KvGet name) s2) as [reply s3].
    simpl in F. subst reply. reflexivity.
  - destruct (w (KvGet n) s1) as [[value|e'] s1']; [|discriminate].
    simpl. destruct value as [v|]; [|now rewrite IH].
    destruct (String.eqb v ""); [now rewrite IH|]. simpl.
    destruct (_ || _); now rewrite IH.
Qed.

(** X10.  One failing [get] discards the whole search.  Under any
    collaborator, when [list] returns names of which the first ones are
    fetched without an exception and the next one makes [get] throw, a
    search for a string answers [Search error: ] and the message,
    whatever matched before; the names after the failing one are not
    fetched. *)
Theorem failing_get_discards_the_hits {ops : StringOps} (W : Type) (w : Collab W)
    (s s2 : W) (q : string) (env : Env) (pre post : list string)
    (name e : string) :
  fst (w KvList s) = Returned (pre ++ name :: post)%list ->
  after_gets w pre (snd (w KvList s)) = Some s2 ->
  fst (w (KvGet name) s2) = Thrown e ->
  run w (searchMemories (JsString q) env) s
  = {| outcome := Returned ("Search error: " ++ e);
       final := snd (w (KvGet name) s2);
       calls := KvList :: map KvGet (pre ++ [name])%list |}.
Proof.
  intros L A F. unfold searchMemories. simpl.
  destruct (w KvList s) as [reply s1]. simpl in L, A. subst reply. simpl.
  rewrite run_try_catch, run_bind.
  rewrite (@loop_stops_at_failing_get _ W w q name post e s2 pre [] s1 A F).
  simpl. now rewrite app_nil_r.
Qed.

(** X10 on a store of three keys whose second cannot be read: the hit
    on the first is lost and the third is not fetched. *)
Lemma failing_get_discards_the_hits_witness :
  run unreadable_b (searchMemories (JsString "apple") unconfigured) tt
  = {| outcome := Returned "Search error: timeout";
       final := tt;
       calls := [KvList; KvGet "a"; KvGet "b"] |}.
Proof.
  exact (@failing_get_discards_the_hits AsciiOps.ops unit unreadable_b tt tt "apple"
           unconfigured ["a"] ["c"] "b" "timeout" eq_refl eq_refl eq_refl).
Defined.

Lemma loop_fetches_a_prefix {ops : StringOps} (W : Type) (w : Collab W)
    (asked : JsVal) (names acc : list string) (s : W) :
  exists fetched rest,
    names = (fetched ++ rest)%list
    /\ calls (run w (searchMemories_loop asked names acc) s) = map KvGet fetched.
Proof.
  revert acc s. induction names as [|name names IH]; intros acc s.
  - now exists [], [].
  - simpl. destruct (w (KvGet name) s) as [[value|e] s1]; simpl.
    + assert (G : forall acc',
                 exists fetched rest,
                   name :: names = (fetched ++ rest)%list
                   /\ KvGet name :: calls (run w (searchMemories_loop asked names acc') s1)
                      = map KvGet fetched).
      { intros acc'. destruct (IH acc' s1) as (fetched & rest & E & C).
        exists (name :: fetched), rest. simpl. now rewrite C, E. }
      destruct value as [v|]; [|apply G].
      destruct (String.eqb v ""); [apply G|].
      destruct (string_receiver "query" "toLowerCase" asked) as [lowered|e]; simpl.
      * destruct (_ || _); apply G.
      * now exists [name], names.
    + now exists [name], names.
Qed.

(** X11.  Whatever the query and the collaborator, a search makes one
    [list] call and then [get] calls on a prefix of the listed names, in
    the order listed and one call per position: it stops at the first
    exception and makes no call when [list] throws. *)
Theorem search_fetches_a_prefix_in_order {ops : StringOps} (W : Type) (w : Collab W)
    (s : W) (asked : JsVal) (env : Env) :
  exists fetched,
    calls (run w (searchMemories asked env) s) = KvList :: map KvGet fetched
    /\ match fst (w KvList s) with
       | Returned names => exists rest, names = (fetched ++ rest)%list
       | Thrown _ => fetched = []
       end.
Proof.
  unfold searchMemories. simpl.
  destruct (w KvList s) as [[names|e] s1]; simpl.
  - rewrite run_try_catch, run_bind.
    destruct (@loop_fetches_a_prefix _ W w asked names [] s1) as (fetched & rest & E & C).
    exists fetched. split; [|now exists rest].
    destruct (outcome (run w (searchMemories_loop asked names []) s1)) as [results|e];
      simpl; rewrite C.
    + destruct (Nat.eqb _ 0); simpl; [|now rewrite app_nil_r].
      destruct (to_string asked); simpl; now rewrite !app_nil_r.
    + now rewrite app_nil_r.
  - now exists [].
Qed.

(** X12.  A stored memory is found by every query that occurs in it:
    for non-empty [k] and [v] and a query whose lowered text occurs in
    the lowered key or in the lowered value, a [store_memory] of [k] and
    [v] followed by a [search_memory] for the query, over any in-memory
    namespace, returns a found-list that has the bullet line of [k] and
    [v]. *)
Theorem stored_memory_is_found_by_matching_queries {ops : StringOps} api
    (ns : Namespace) (k v q : string) (id1 id2 : JsVal) (env : Env) :
  k <> "" -> v <> "" ->
  includes (toLowerCase k) (toLowerCase q) = true
  \/ includes (toLowerCase v) (toLowerCase q) = true ->
  let stored :=
    run (memory api) (handleMCP (store_memory (JsString k) (JsString v) id1) env) ns in
  exists results,
    outcome (run (memory api) (handleMCP (search_memory (JsString q) id2) env)
               (final stored))
    = Returned
        (Result
           (ToolOutput
              [{| type := "text";
                  text := "Found " ++ string_of_nat (List.length results)
                          ++ " memories:" ++ newline ++ join newline results |}])
           id2)
    /\ In ("• " ++ k ++ ": " ++ v) results.
Proof.
  intros Hk Hv Hq stored. subst stored. rewrite store_on_memory by assumption.
  cbn [final]. unfold search_memory. rewrite handleMCP_search.
  simpl args_or_default. cbn [query].
  rewrite js_or_string, run_bind, search_on_memory_lines. cbn [outcome final calls].
  set (results := lines q (ns_put k v ns) (ns_keys (ns_put k v ns))).
  assert (Hin : In ("• " ++ k ++ ": " ++ v) results).
  { apply in_flat_map. exists k. split; [apply ns_put_listed|].
    rewrite ns_get_put_same. unfold matches; cbn [fst snd].
    destruct (String.eqb_spec v "") as [|_]; [contradiction|].
    apply orb_true_iff in Hq. rewrite Hq. now left. }
  exists results. split; [|exact Hin].
  destruct results as [|line results]; [contradiction|]. reflexivity.
Qed.

(** X12 on a query in upper case that occurs in the value only. *)
Lemma stored_memory_is_found_by_matching_queries_witness :
  exists results,
    outcome
      (run (memory api_down)
         (handleMCP (search_memory (JsString "MILK") JsNull) unconfigured)
         (final
            (run (memory api_down)
               (handleMCP
                  (store_memory (JsString "list") (JsString "Buy milk") JsNull)
                  unconfigured)
               [("other", Some "x")])))
    = Returned
        (Result
           (ToolOutput
              [{| type := "text";
                  text := "Found " ++ string_of_nat (List.length results)
                          ++ " memories:" ++ newline ++ join newline results |}])
           JsNull)
    /\ In ("• " ++ "list" ++ ": " ++ "Buy milk") results.
Proof.
  apply (@stored_memory_is_found_by_matching_queries AsciiOps.ops api_down
           [("other", Some "x")] "list" "Buy milk" "MILK" JsNull JsNull unconfigured);
    [discriminate | discriminate | right; reflexivity].
Defined.

Lemma lines_of_equal_lowerings {ops : StringOps} (q1 q2 : string) (ns : Namespace)
    (names : list string) :
  toLowerCase q1 = toLowerCase q2 -> lines q1 ns names = lines q2 ns names.
Proof.
  intros E. unfold lines, matches. cbn [fst snd]. now rewrite E.
Qed.

(** X13.  The case of the query does not matter: over any in-memory
    namespace, two queries with the same lowered text push the same
    lines, so both searches return the same found-list, or both return
    the no-match sentence, each with its own query between the quotes. *)
Theorem queries_differing_in_case_find_the_same {ops : StringOps} api
    (ns : Namespace) (q1 q2 : string) (rid : JsVal) (env : Env) :
  toLowerCase q1 = toLowerCase q2 ->
  exists results,
    forall q, q = q1 \/ q = q2 ->
      outcome (run (memory api) (handleMCP (search_memory (JsString q) rid) env) ns)
      = Returned
          (Result
             (ToolOutput
                [{| type := "text";
                    text :=
                      match results with
                      | [] => "No memories found matching " ++ dquote ++ q ++ dquote
                      | _ =>
                          "Found " ++ string_of_nat (List.length results)
                          ++ " memories:" ++ newline ++ join newline results
                      end |}])
             rid).
Proof.
  intros E. exists (lines q1 ns (ns_keys ns)). intros q Hq.
  unfold search_memory. rewrite handleMCP_search. simpl args_or_default.
  cbn [query]. rewrite js_or_string, run_bind_ret, search_on_memory_lines.
  cbn [outcome].
  assert (L : lines q ns (ns_keys ns) = lines q1 ns (ns_keys ns)).
  { destruct Hq as [->| ->]; [reflexivity|].
    symmetry. now apply lines_of_equal_lowerings. }
  rewrite L. now destruct (lines q1 ns (ns_keys ns)).
Qed.

(** X13 on the queries [Milk] and [MILK]. *)
Lemma queries_differing_in_case_find_the_same_witness :
  exists results,
    forall q, q = "Milk" \/ q = "MILK" ->
      outcome
        (run (memory api_down)
           (handleMCP (search_memory (JsString q) JsNull) unconfigured)
           [("list", Some "Buy milk")])
      = Returned
          (Result
             (ToolOutput
                [{| type := "text";
                    text :=
                      match results with
                      | [] => "No memories found matching " ++ dquote ++ q ++ dquote
                      | _ =>
                          "Found " ++ string_of_nat (List.length results)
                          ++ " memories:" ++ newline ++ join newline results
                      end |}])
             JsNull).
Proof.
  exact (@queries_differing_in_case_find_the_same AsciiOps.ops api_down
           [("list", Some "Buy milk")] "Milk" "MILK" JsNull unconfigured eq_refl).
Defined.

(* ================================================================== *)
(** ** More on [askMemoryWithAI] *)

Lemma ask_after_search {ops : StringOps} (W : Type) (w : Collab W) (s : W)
    (q : string) (env : Env) (found : string) :
  trim q <> "" ->
  outcome (run w (searchMemories (JsString q) env) s) = Returned found ->
  run w (askMemoryWithAI (JsString q) env) s
  = {| outcome :=
         Returned
           (completion_answer q found
              (fst (w (Fetch (completion_request env (prompt_for q found)))
                      (final (run w (searchMemories (JsString q) env) s)))));
       final :=
         snd (w (Fetch (completion_request env (prompt_for q found)))
                (final (run w (searchMemories (JsString q) env) s)));
       calls :=
         (calls (run w (searchMemories (JsString q) env) s)
          ++ [Fetch (completion_request env (prompt_for q found))])%list |}.
Proof.
  intros T E. rewrite ask_unfold.
  destruct (String.eqb_spec (trim q) "") as [|_]; [contradiction|].
  rewrite run_bind, E. cbv zeta. rewrite run_try_catch. cbn [bind await run].
  destruct (w (Fetch (completion_request env (prompt_for q found)))
              (final (run w (searchMemories (JsString q) env) s)))
    as [[response|message] s2]; cbn [fst snd lift bind completion_answer].
  - destruct (ok response); cbn [negb].
    + destruct (json response) as [data|message]; cbn [lift bind].
      * destruct (first_choice_content data); reflexivity.
      * reflexivity.
    + reflexivity.
  - reflexivity.
Qed.

Lemma ask_tool_after_search {ops : StringOps} (W : Type) (w : Collab W) (s : W)
    (q : string) (rid : JsVal) (env : Env) (found : string) :
  trim q <> "" ->
  outcome (run w (searchMemories (JsString q) env) s) = Returned found ->
  run w (handleMCP (ask_memory (JsString q) rid) env) s
  = {| outcome :=
         Returned
           (text_result
              (completion_answer q found
                 (fst (w (Fetch (completion_request env (prompt_for q found)))
                         (final (run w (searchMemories (JsString q) env) s)))))
              rid);
       final :=
         snd (w (Fetch (completion_request env (prompt_for q found)))
                (final (run w (searchMemories (JsString q) env) s)));
       calls :=
         (calls (run w (searchMemories (JsString q) env) s)
          ++ [Fetch (completion_request env (prompt_for q found))])%list |}.
Proof.
  intros T E. unfold ask_memory. rewrite handleMCP_ask. simpl args_or_default.
  cbn [question]. rewrite js_or_string, run_bind_ret.
  now rewrite (@ask_after_search _ W w s q env found T E).
Qed.

(** X14.  For a question that [trim] does not empty, under every
    behaviour of the collaborators, [ask_memory] makes the calls of the
    search and then exactly one completion call, whether that call
    succeeds or fails: nothing is retried and nothing is written.  The
    one user message of the request contains the question and the text
    the search returned, and the model is [OPENAI_MODEL] when that is
    truthy and [gpt-5] otherwise. *)
Theorem ask_makes_one_completion_call {ops : StringOps} (W : Type) (w : Collab W)
    (s : W) (q : string) (rid : JsVal) (env : Env) :
  trim q <> "" ->
  exists found prompt,
    outcome (run w (searchMemories (JsString q) env) s) = Returned found
    /\ calls (run w (handleMCP (ask_memory (JsString q) rid) env) s)
       = (calls (run w (searchMemories (JsString q) env) s)
          ++ [Fetch (completion_request env prompt)])%list
    /\ req_messages (completion_request env prompt) = [("user", prompt)]
    /\ includes prompt q = true
    /\ includes prompt found = true
    /\ req_model (completion_request env prompt)
       = (if truthy (OPENAI_MODEL env) then OPENAI_MODEL env else JsString "gpt-5").
Proof.
  intros T.
  destruct (never_throws_run w (searchMemories_never_throws (JsString q) env) s)
    as [found E].
  exists found, (prompt_for q found). split; [exact E|].
  rewrite (@ask_tool_after_search _ W w s q rid env found T E). cbn [calls].
  split; [reflexivity|]. split; [reflexivity|]. split; [|split; [|reflexivity]].
  - unfold prompt_for. do 3 apply includes_append_l.
    apply includes_append_r, includes_refl.
  - unfold prompt_for. do 9 apply includes_append_l.
    apply includes_append_r, includes_refl.
Qed.

(** X14 on a question over a namespace with one entry and an API that is
    down: one [list], one [get], one completion call. *)
Lemma ask_makes_one_completion_call_witness :
  exists found prompt,
    outcome (run (memory api_down) (searchMemories (JsString "a") unconfigured)
               [("a", Some "b")])
    = Returned found
    /\ calls (run (memory api_down)
                (handleMCP (ask_memory (JsString "a") JsNull) unconfigured)
                [("a", Some "b")])
       = (calls (run (memory api_down) (searchMemories (JsString "a") unconfigured)
                   [("a", Some "b")])
          ++ [Fetch (completion_request unconfigured prompt)])%list
    /\ req_messages (completion_request unconfigured prompt) = [("user", prompt)]
    /\ includes prompt "a" = true
    /\ includes prompt found = true
    /\ req_model (completion_request unconfigured prompt)
       = (if truthy (OPENAI_MODEL unconfigured)
          then OPENAI_MODEL unconfigured else JsString "gpt-5").
Proof.
  apply (@ask_makes_one_completion_call AsciiOps.ops Namespace (memory api_down)
           [("a", Some "b")] "a" JsNull unconfigured).
  discriminate.
Defined.

(** X15.  For a question that [trim] does not empty, when the completion
    call resolves with a status in 200-299 and a body whose first choice
    has the content [c], [ask_memory] returns the question between
    double quotes and the response [trim c]: the other choices and the
    text of the search are not in the answer. *)
Theorem ask_returns_the_first_choice {ops : StringOps} (W : Type) (w : Collab W)
    (s : W) (q : string) (rid : JsVal) (env : Env) :
  trim q <> "" ->
  exists found,
    outcome (run w (searchMemories (JsString q) env) s) = Returned found
    /\ forall response c others,
         fst (w (Fetch (completion_request env (prompt_for q found)))
                (final (run w (searchMemories (JsString q) env) s)))
         = Returned response ->
         200 <= status response <= 299 ->
         json response = Returned (Some c :: others) ->
         outcome (run w (handleMCP (ask_memory (JsString q) rid) env) s)
         = Returned
             (Result
                (ToolOutput
                   [{| type := "text";
                       text :=
                         "🧠 **Memory Query**: " ++ dquote ++ q ++ dquote
                         ++ newline ++ newline
                         ++ "📝 **Response**: " ++ trim c |}])
                rid).
Proof.
  intros T.
  destruct (never_throws_run w (searchMemories_never_throws (JsString q) env) s)
    as [found E].
  exists found. split; [exact E|]. intros response c others R S J.
  rewrite (@ask_tool_after_search _ W w s q rid env found T E). cbn [outcome].
  rewrite R. unfold completion_answer, ok.
  replace ((200 <=? status response) && (status response <=? 299)) with true
    by (symmetry; apply andb_true_iff; rewrite !Z.leb_le; lia).
  now rewrite J.
Qed.

(** X15 on an API that answers 200 with two choices. *)
Lemma ask_returns_the_first_choice_witness :
  outcome
    (run (memory
            (api_answering
               {| status := 200;
                  json := Returned [Some "  It is b. "; Some "Or c."] |}))
       (handleMCP (ask_memory (JsString "a") JsNull) unconfigured)
       [("a", Some "b")])
  = Returned
      (text_result
         ("🧠 **Memory Query**: " ++ dquote ++ "a" ++ dquote ++ newline ++ newline
          ++ "📝 **Response**: It is b.")
         JsNull).
Proof.
  assert (T : @trim AsciiOps.ops "a" <> "") by discriminate.
  destruct (@ask_returns_the_first_choice AsciiOps.ops Namespace
              (memory
                 (api_answering
                    {| status := 200;
                       json := Returned [Some "  It is b. "; Some "Or c."] |}))
              [("a", Some "b")] "a" JsNull unconfigured T)
    as (found & E & H).
  apply (H {| status := 200; json := Returned [Some "  It is b. "; Some "Or c."] |}
           "  It is b. " [Some "Or c."]); [reflexivity | | reflexivity].
  cbn [status]. lia.
Defined.

(** X16.  A completion response with a status in 200-299 whose body
    cannot be used falls back like a failed call: when [response.json()]
    rejects, or when the body has no choice at all, [ask_memory] returns
    the AI-error text with the message of the exception, followed by
    the text of the search. *)
Theorem unusable_completion_body_falls_back {ops : StringOps} (W : Type)
    (w : Collab W) (s : W) (q : string) (rid : JsVal) (env : Env) :
  trim q <> "" ->
  exists found,
    outcome (run w (searchMemories (JsString q) env) s) = Returned found
    /\ forall response message,
         fst (w (Fetch (completion_request env (prompt_for q found)))
                (final (run w (searchMemories (JsString q) env) s)))
         = Returned response ->
         200 <= status response <= 299 ->
         json response = Thrown message
         \/ (json response = Returned []
             /\ message = "Cannot read properties of undefined (reading 'message')") ->
         outcome (run w (handleMCP (ask_memory (JsString q) rid) env) s)
         = Returned
             (Result
                (ToolOutput
                   [{| type := "text";
                       text :=
                         "🧠 **Memory Query**: " ++ dquote ++ q ++ dquote
                         ++ newline ++ newline
                         ++ "❌ **AI Error**: " ++ message ++ newline ++ newline
                         ++ "📋 **Found memories**: " ++ found |}])
                rid).
Proof.
  intros T.
  destruct (never_throws_run w (searchMemories_never_throws (JsString q) env) s)
    as [found E].
  exists found. split; [exact E|]. intros response message R S J.
  rewrite (@ask_tool_after_search _ W w s q rid env found T E). cbn [outcome].
  rewrite R. unfold completion_answer, ok.
  replace ((200 <=? status response) && (status response <=? 299)) with true
    by (symmetry; apply andb_true_iff; rewrite !Z.leb_le; lia).
  destruct J as [-> | [-> ->]]; reflexivity.
Qed.

(** X16 on an API that answers 200 with an empty list of choices. *)
Lemma unusable_completion_body_falls_back_witness :
  outcome
    (run (memory (api_answering {| status := 200; json := Returned [] |}))
       (handleMCP (ask_memory (JsString "a") JsNull) unconfigured)
       [("a", Some "b")])
  = Returned
      (text_result
         ("🧠 **Memory Query**: " ++ dquote ++ "a" ++ dquote ++ newline ++ newline
          ++ "❌ **AI Error**: Cannot read properties of undefined (reading 'message')"
          ++ newline ++ newline
          ++ "📋 **Found memories**: Found 1 memories:" ++ newline ++ "• a: b")
         JsNull).
Proof.
  assert (T : @trim AsciiOps.ops "a" <> "") by discriminate.
  destruct (@unusable_completion_body_falls_back AsciiOps.ops Namespace
              (memory (api_answering {| status := 200; json := Returned [] |}))
              [("a", Some "b")] "a" JsNull unconfigured T)
    as (found & E & H).
  vm_compute in E. apply Returned_inj in E. subst found.
  apply (H {| status := 200; json := Returned [] |}
           "Cannot read properties of undefined (reading 'message')");
    [reflexivity | | right; split; reflexivity].
  cbn [status]. lia.
Defined.

(* ================================================================== *)
(** ** The methods and the catalog *)

(** X17.  Only [tools/call] reaches the collaborators: a request with
    any other method ([initialize], [tools/list], or one that is not
    known) is settled without a call on the key-value store or the
    completion API and without looking at [params], be it absent, [null]
    or an object.  It is answered with an envelope unless the method is
    an object without a text, for which the template literal of the
    unknown-method message throws. *)
Theorem only_tools_call_reaches_the_collaborators {ops : StringOps} (W : Type)
    (w : Collab W) (s : W) (body : Body) (env : Env) :
  method body <> JsString "tools/call" ->
  exists answer,
    run w (handleMCP body env) s
    = {| outcome := answer; final := s; calls := [] |}
    /\ (forall other,
          handleMCP {| method := method body; params := other; id := id body |} env
          = lift answer)
    /\ ((exists envelope, answer = Returned envelope)
        <-> method body <> JsUnprintable)
    /\ (method body = JsUnprintable ->
        answer = Thrown "Cannot convert object to primitive value").
Proof.
  intros N. unfold handleMCP. cbn [method params id].
  rewrite (strict_eq_string_false N).
  destruct (strict_eq_string (method body) "initialize") eqn:Einit.
  { apply strict_eq_string_true in Einit. rewrite Einit.
    eexists; split; [reflexivity|]. split; [reflexivity|].
    split; [split; [discriminate | intros _; eexists; reflexivity] | discriminate]. }
  destruct (strict_eq_string (method body) "tools/list") eqn:Elist.
  { apply strict_eq_string_true in Elist. rewrite Elist.
    eexists; split; [reflexivity|]. split; [reflexivity|].
    split; [split; [discriminate | intros _; eexists; reflexivity] | discriminate]. }
  destruct (to_string (method body)) as [t|message] eqn:Et.
  - eexists; split; [reflexivity|]. split; [reflexivity|].
    split; [split; [intros _ | intros _; eexists; reflexivity] | ].
    + apply to_string_returns. now exists t.
    + intros U. rewrite U in Et. discriminate Et.
  - eexists; split; [reflexivity|]. split; [reflexivity|].
    split; [split; [intros [? [=]] | intros U] | ].
    + apply to_string_returns in U as [t U]. congruence.
    + intros U. rewrite U in Et. simpl in Et. congruence.
Qed.

(** X17 on [tools/list] with [params] null and collaborators that would
    throw if called. *)
Lemma only_tools_call_reaches_the_collaborators_witness :
  exists answer,
    run (failing "called")
      (handleMCP {| method := JsString "tools/list"; params := Null; id := JsNumber 2 |}
         unconfigured)
      tt
    = {| outcome := answer; final := tt; calls := [] |}
    /\ (forall other,
          handleMCP
            {| method := JsString "tools/list"; params := other; id := JsNumber 2 |}
            unconfigured
          = lift answer)
    /\ exists envelope, answer = Returned envelope.
Proof.
  destruct (@only_tools_call_reaches_the_collaborators AsciiOps.ops unit
              (failing "called") tt
              {| method := JsString "tools/list"; params := Null; id := JsNumber 2 |}
              unconfigured)
    as (answer & R & P & E & _); [discriminate|].
  exists answer. split; [exact R|]. split; [exact P|].
  apply E. discriminate.
Defined.

(** X18.  The catalog of [tools/list] and the dispatch of [tools/call]
    agree: a name is the name of a listed tool exactly when a
    [tools/call] of that name is not answered with the error
    [Unknown tool], whatever the arguments and the collaborators. *)
Theorem catalog_lists_the_dispatched_tools {ops : StringOps} (W : Type)
    (w : Collab W) (s : W) (tool : string) (a : option Args) (rid : JsVal)
    (env : Env) :
  In tool (map tool_name tools)
  <->
  outcome (run w (handleMCP (tool_call (JsString tool) a rid) env) s)
  <> Returned (Error (-32601) ("Unknown tool: " ++ tool) rid).
Proof.
  split.
  - intros [<-|[<-|[<-|[]]]].
    + rewrite handleMCP_ask, run_bind_ret. cbn [outcome].
      now destruct (outcome (run w (askMemoryWithAI _ env) s)).
    + rewrite handleMCP_store. cbv zeta.
      destruct (negb _ || negb _); [discriminate|].
      rewrite outcome_after_put.
      destruct (fst (w (KvPut _ _) s)); [|discriminate].
      now destruct (to_string _).
    + rewrite handleMCP_search, run_bind_ret. cbn [outcome].
      now destruct (outcome (run w (searchMemories _ env) s)).
  - intros H.
    destruct (in_dec string_dec tool (map tool_name tools)) as [i|n]; [exact i|].
    elim H. unfold handleMCP, tool_call. cbn [method params id name].
    cbn [strict_eq_string destructured lift bind name String.eqb Ascii.eqb Bool.eqb].
    simpl in n.
    destruct (String.eqb_spec tool "ask_memory") as [->|_]; [elim n; auto|].
    destruct (String.eqb_spec tool "store_memory") as [->|_]; [elim n; auto|].
    destruct (String.eqb_spec tool "search_memory") as [->|_]; [elim n; auto|].
    reflexivity.
Qed.

(** X19.  [null] in the place of an object is not defaulted: under every
    collaborator, a [tools/call] whose [params] is [null], or whose
    [arguments] is [null] for one of the three tools, throws a
    [TypeError] out of the dispatcher before any call is made; with
    [arguments] null and a name that is not a tool, the arguments are
    never read and the answer is the error [Unknown tool]. *)
Theorem null_is_not_defaulted {ops : StringOps} (W : Type) (w : Collab W) (s : W)
    (rid : JsVal) (env : Env) :
  let thrown message := {| outcome := Thrown message; final := s; calls := [] |} in
  run w (handleMCP {| method := JsString "tools/call"; params := Null; id := rid |} env) s
  = thrown "Cannot destructure property 'name' of 'params' as it is null."
  /\ run w (handleMCP (tool_call_with (JsString "ask_memory") Null rid) env) s
     = thrown "Cannot read properties of null (reading 'question')"
  /\ run w (handleMCP (tool_call_with (JsString "store_memory") Null rid) env) s
     = thrown "Cannot destructure property 'key' of 'args' as it is null."
  /\ run w (handleMCP (tool_call_with (JsString "search_memory") Null rid) env) s
     = thrown "Cannot read properties of null (reading 'query')"
  /\ forall tool : string,
       tool <> "ask_memory" -> tool <> "store_memory" -> tool <> "search_memory" ->
       run w (handleMCP (tool_call_with (JsString tool) Null rid) env) s
       = {| outcome := Returned (Error (-32601) ("Unknown tool: " ++ tool) rid);
            final := s;
            calls := [] |}.
Proof.
  intros thrown. repeat split.
  intros tool N1 N2 N3. unfold handleMCP, tool_call_with.
  cbn [method params id name destructured lift bind].
  assert (F : forall lit, tool <> lit -> strict_eq_string (JsString tool) lit = false).
  { intros lit N. apply strict_eq_string_false. congruence. }
  now rewrite !F by assumption.
Qed.

(** X19 on the tool name [delete_memory]. *)
Lemma null_is_not_defaulted_witness :
  run (failing "called")
    (handleMCP (tool_call_with (JsString "delete_memory") Null JsNull) unconfigured) tt
  = {| outcome := Returned (Error (-32601) "Unknown tool: delete_memory" JsNull);
       final := tt;
       calls := [] |}.
Proof.
  apply (proj2 (proj2 (proj2 (proj2
           (@null_is_not_defaulted AsciiOps.ops unit (failing "called") tt JsNull
              unconfigured)))) "delete_memory"); discriminate.
Defined.
